(** * Mediumql: the tag-feed proxy of [main.py]

    A shallow embedding of [clean_medium_response] and of the view function
    [get_tag_feed_handler], with the Python values they manipulate, and the
    properties of the specification that concern them.

    Conventions of the embedding:
    - a value decoded from JSON is a [json]; a Python [dict] is an association
      list read from the left, a [list] is a [list], [None] is [JNull];
      numbers are the integers (no statement below depends on a number);
    - text is a [string]; [strip], [upper] and [repr] are Python's on ASCII
      text, and a statement that depends on them for a text of the client
      says that this text is ASCII;
    - a Python expression that may raise evaluates to a [result];
    - logging has no effect on the value returned and is left out, and
      [json.dumps], called for the log only, returns on every decoded value;
      the call [e.response.json()] of line 196, made for the log, can raise
      and is kept;
    - [json.loads], [requests.post] and [request.get_json] belong to
      libraries, not to this program: the first is a parameter of the
      development, the outcomes of the other two are inputs of the handler. *)

From Stdlib Require Import String Ascii List ZArith Bool Lia.
From Stdlib Require Import DecimalString.
Import ListNotations.

Local Open Scope list_scope.
Local Open Scope string_scope.

Set Warnings "-register-all".

(** ** Python values *)

Module Py.

Inductive json : Type :=
| JNull
| JBool (b : bool)
| JInt (z : Z)
| JStr (s : string)
| JArr (l : list json)
| JObj (kvs : list (string * json)).

(** The exceptions the handler can meet, and the response of
    [requests.post] as far as the handler reads it. [HTTPError] carries
    [str(e)] and [e.response]; [RequestException] stands for every exception
    of [requests] that is neither [HTTPError] nor [Timeout]; [ValueError]
    and [RecursionError] are what a decoder raises, besides
    [JSONDecodeError], on a number of too many digits and on too deep a
    nesting. A response carries [json_raises], what a call of its method
    [json()] raises, [None] when the call returns. *)
Inductive exn : Type :=
| AttributeError
| TypeError
| KeyError
| BadRequest
| JSONDecodeError (msg : string)
| HTTPError (msg : string) (response : option upstream_response)
| Timeout
| RequestException (msg : string)
| ValueError
| RecursionError
with upstream_response : Type :=
| mkResponse (status_code : Z) (reason url text : string)
    (json_raises : option exn).

Definition status_code (r : upstream_response) : Z :=
  match r with mkResponse status_code _ _ _ _ => status_code end.

Definition reason (r : upstream_response) : string :=
  match r with mkResponse _ reason _ _ _ => reason end.

Definition url (r : upstream_response) : string :=
  match r with mkResponse _ _ url _ _ => url end.

Definition text (r : upstream_response) : string :=
  match r with mkResponse _ _ _ text _ => text end.

Definition json_raises (r : upstream_response) : option exn :=
  match r with mkResponse _ _ _ _ json_raises => json_raises end.

Inductive result (A : Type) : Type :=
| Ok (a : A)
| Raise (e : exn).

Arguments Ok {A} a.
Arguments Raise {A} e.

Definition bind {A B : Type} (r : result A) (k : A -> result B) : result B :=
  match r with
  | Ok a => k a
  | Raise e => Raise e
  end.

Notation "x <- r ;; k" := (bind r (fun x => k))
  (at level 61, r at next level, right associativity).

(** [bool(v)]: what [if v] and [not v] test. *)
Definition truthy (v : json) : bool :=
  match v with
  | JNull => false
  | JBool b => b
  | JInt z => negb (Z.eqb z 0)
  | JStr s => negb (String.eqb s "")
  | JArr l => match l with [] => false | _ :: _ => true end
  | JObj kvs => match kvs with [] => false | _ :: _ => true end
  end.

(** Lookup in a [dict]. *)
Fixpoint dict_get (kvs : list (string * json)) (key : string) : option json :=
  match kvs with
  | [] => None
  | (k, v) :: rest => if String.eqb k key then Some v else dict_get rest key
  end.

(** [d.get(key, default)]: the default is used only when the key is not in
    the dict; a receiver that is not a dict has no attribute [get]. *)
Definition get (d : json) (key : string) (default : json) : result json :=
  match d with
  | JObj kvs =>
      Ok (match dict_get kvs key with
          | Some v => v
          | None => default
          end)
  | _ => Raise AttributeError
  end.

(** [d[key]]. A list or a string cannot be indexed by a string. *)
Definition getitem (d : json) (key : string) : result json :=
  match d with
  | JObj kvs =>
      match dict_get kvs key with
      | Some v => Ok v
      | None => Raise KeyError
      end
  | _ => Raise TypeError
  end.

(** Substring test, for [key in text]. *)
Fixpoint is_substring (needle hay : string) : bool :=
  if String.prefix needle hay then true
  else match hay with
       | EmptyString => false
       | String _ rest => is_substring needle rest
       end.

Definition is_str (key : string) (v : json) : bool :=
  match v with
  | JStr s => String.eqb key s
  | _ => false
  end.

(** [key in d] for a string [key]: key of a dict, element of a list,
    substring of a string; the other values are not containers. *)
Definition contains (key : string) (d : json) : result bool :=
  match d with
  | JObj kvs => Ok (match dict_get kvs key with Some _ => true | None => false end)
  | JArr l => Ok (existsb (is_str key) l)
  | JStr s => Ok (is_substring key s)
  | _ => Raise TypeError
  end.

Fixpoint chars (s : string) : list json :=
  match s with
  | EmptyString => []
  | String c rest => JStr (String c EmptyString) :: chars rest
  end.

(** What [for x in v] goes through. *)
Definition iter (v : json) : result (list json) :=
  match v with
  | JArr l => Ok l
  | JObj kvs => Ok (map (fun kv => JStr (fst kv)) kvs)
  | JStr s => Ok (chars s)
  | _ => Raise TypeError
  end.

(** [len(v)]. *)
Definition len (v : json) : result nat :=
  match v with
  | JArr l => Ok (List.length l)
  | JObj kvs => Ok (List.length kvs)
  | JStr s => Ok (String.length s)
  | _ => Raise TypeError
  end.

(** *** [str] and [repr] *)

Definition str_of_Z (z : Z) : string := NilZero.string_of_int (Z.to_int z).

Definition hex_digit (n : nat) : ascii :=
  if Nat.ltb n 10 then ascii_of_nat (48 + n) else ascii_of_nat (87 + n).

Fixpoint has_char (c : ascii) (s : string) : bool :=
  match s with
  | EmptyString => false
  | String d rest => Ascii.eqb c d || has_char c rest
  end.

Definition backslash : ascii := "\"%char.
Definition single_quote : ascii := "'"%char.
Definition double_quote : ascii := ascii_of_nat 34.

Definition escape_char (quote c : ascii) : string :=
  let n := nat_of_ascii c in
  if Ascii.eqb c quote || Ascii.eqb c backslash
  then String backslash (String c EmptyString)
  else if Nat.eqb n 9 then String backslash "t"
  else if Nat.eqb n 10 then String backslash "n"
  else if Nat.eqb n 13 then String backslash "r"
  else if Nat.ltb n 32 || Nat.eqb n 127
  then String backslash
         (String "x" (String (hex_digit (n / 16)) (String (hex_digit (n mod 16)) EmptyString)))
  else String c EmptyString.

Fixpoint escape (quote : ascii) (s : string) : string :=
  match s with
  | EmptyString => EmptyString
  | String c rest => escape_char quote c ++ escape quote rest
  end.

(** [repr] of a [str] of ASCII text: single quotes, unless the text has a
    single quote and no double quote. *)
Definition repr_str (s : string) : string :=
  let quote :=
    if has_char single_quote s && negb (has_char double_quote s)
    then double_quote else single_quote in
  String quote (escape quote s ++ String quote EmptyString).

Fixpoint join (sep : string) (l : list string) : string :=
  match l with
  | [] => EmptyString
  | [s] => s
  | s :: rest => s ++ sep ++ join sep rest
  end.

Fixpoint repr (v : json) : string :=
  match v with
  | JNull => "None"
  | JBool true => "True"
  | JBool false => "False"
  | JInt z => str_of_Z z
  | JStr s => repr_str s
  | JArr l => "[" ++ join ", " (map repr l) ++ "]"
  | JObj kvs =>
      "{" ++ join ", " (map (fun kv => match kv with
                                      | (k, x) => repr_str k ++ ": " ++ repr x
                                      end) kvs) ++ "}"
  end.

(** [str(v)], also what an f-string puts for [{v}]. *)
Definition str (v : json) : string :=
  match v with
  | JStr s => s
  | _ => repr v
  end.

(** *** [strip] and [upper]

    Python's [str.strip] and [str.upper] on ASCII text. On other text
    Python follows Unicode (it strips U+00A0, it uppercases U+0131 to I):
    a statement whose truth depends on the result for a text of the client
    carries the hypothesis that this text is ASCII. *)

Definition isspace (c : ascii) : bool :=
  let n := nat_of_ascii c in
  Nat.eqb n 32 || (Nat.leb 9 n && Nat.leb n 13) || (Nat.leb 28 n && Nat.leb n 31).

Fixpoint lstrip (s : string) : string :=
  match s with
  | EmptyString => EmptyString
  | String c rest => if isspace c then lstrip rest else s
  end.

Fixpoint rstrip (s : string) : string :=
  match s with
  | EmptyString => EmptyString
  | String c rest =>
      match rstrip rest with
      | EmptyString => if isspace c then EmptyString else String c EmptyString
      | rest' => String c rest'
      end
  end.

Definition strip (s : string) : string := rstrip (lstrip s).

Definition upper_char (c : ascii) : ascii :=
  let n := nat_of_ascii c in
  if Nat.leb 97 n && Nat.leb n 122 then ascii_of_nat (n - 32) else c.

Fixpoint upper (s : string) : string :=
  match s with
  | EmptyString => EmptyString
  | String c rest => String (upper_char c) (upper rest)
  end.

(** [text[n:]]. *)
Fixpoint drop (n : nat) (s : string) : string :=
  match n, s with
  | O, _ => s
  | S _, EmptyString => EmptyString
  | S m, String _ rest => drop m rest
  end.

End Py.

Import Py.

(** ** Helper functions of [main.py] *)

Definition prefix_to_remove : string := "])}while(1);</x>".

(** [clean_medium_response]. *)
Definition clean_medium_response (text : string) : string :=
  if String.prefix prefix_to_remove text
  then drop (String.length prefix_to_remove) text
  else text.

(** ** Configuration *)

Definition MEDIUM_GRAPHQL_ENDPOINT : string := "https://medium.com/_/graphql".

Definition BASE_REQUEST_HEADERS : list (string * string) :=
  [ ("Content-Type", "application/json");
    ("Accept", "application/json");
    ("Origin", "https://medium.com");
    ("Referer", "https://medium.com/");
    ("User-Agent", "PythonBackend/1.0 (MediumFeedFetcher; +https://yourdomain.com/info)") ].

(** ** The library [requests], as far as [main.py] uses it *)

Module Requests.

(** The arguments of [requests.post]. *)
Record request : Type := mkRequest {
  endpoint : string;
  headers : list (string * string);
  payload : json;
  timeout : Z
}.

(** [Response.raise_for_status]. *)
Definition raise_for_status (r : upstream_response) : result unit :=
  let described kind :=
    str_of_Z (status_code r) ++ " " ++ kind ++ " Error: " ++ reason r
      ++ " for url: " ++ url r in
  if (400 <=? status_code r)%Z && (status_code r <? 500)%Z
  then Raise (HTTPError (described "Client") (Some r))
  else if (500 <=? status_code r)%Z && (status_code r <? 600)%Z
  then Raise (HTTPError (described "Server") (Some r))
  else Ok tt.

End Requests.

Import Requests.

(** ** The route [/] *)

(** [home]: the body for [jsonify] and the status. *)
Definition home : json * Z :=
  (JObj [("status", JStr "Medium TagFeed Proxy is running correctly!");
         ("message", JStr "Welcome!")], 200%Z).

(** ** The route [/get-tag-feed] *)

(** A run of the view function: it returns (a body for [jsonify] and a
    status, or an exception that leaves the function) without calling
    upstream, or it calls [requests.post] once and goes on from the outcome
    of that call. *)
Inductive run : Type :=
| Done (r : result (json * Z))
| Call (req : request) (k : result upstream_response -> result (json * Z)).

Definition newline : string := String (ascii_of_nat 10) EmptyString.

Definition graphql_query : string :=
  newline ++ join newline
    [ "    query TagFeed($tagSlug: String!, $mode: TagFeedMode!) {";
      "      tagFeed(tagSlug: $tagSlug, mode: $mode) {";
      "        items {";
      "          feedId";
      "          post {";
      "            id # Post ID, often useful";
      "            title";
      "            mediumUrl # Canonical URL if available";
      "            uniqueSlug # Used for constructing URLs";
      "            creator {";
      "              id # User ID";
      "              name";
      "              username # Often part of the URL structure";
      "            }";
      "          }";
      "        }";
      "      }";
      "    }";
      "    " ].

Definition valid_modes : list string :=
  ["HOT"; "NEW"; "TOP_ALL_TIME"; "TOP_MONTH"; "TOP_WEEK"; "TOP_YEAR"].

(** [mode in valid_modes]. *)
Definition in_valid_modes (mode : string) : bool :=
  existsb (String.eqb mode) valid_modes.

(** [jsonify({"error": msg})] and [jsonify({"error": msg, "details": d})]. *)
Definition error_body (msg : string) : json := JObj [("error", JStr msg)].

Definition error_details (msg : string) (details : json) : json :=
  JObj [("error", JStr msg); ("details", details)].

(** The body of the loop over the items, lines 155 to 187: [None] when the
    item is skipped by [continue], the article appended otherwise. *)
Definition process_item (item : json) : result (option json) :=
  post_data <- get item "post" JNull ;;
  if negb (truthy post_data) then Ok None
  else
    feed_id <- get item "feedId" JNull ;;
    title <- get post_data "title" (JStr "Untitled") ;;
    creator <- get post_data "creator" (JObj []) ;;
    author_name <- get creator "name" (JStr "Unknown Author") ;;
    article_link <- get post_data "mediumUrl" JNull ;;
    article_link <-
      (if negb (truthy article_link) then
         unique_slug <- get post_data "uniqueSlug" JNull ;;
         creator <- get post_data "creator" (JObj []) ;;
         author_username <- get creator "username" JNull ;;
         if truthy unique_slug then
           if truthy author_username then
             Ok (JStr ("https://" ++ str author_username ++ ".medium.com/"
                         ++ str unique_slug))
           else
             post_id <- get post_data "id" unique_slug ;;
             Ok (JStr ("https://medium.com/p/" ++ str post_id))
         else if truthy feed_id then
           Ok (JStr ("https://medium.com/p/" ++ str feed_id))
         else Ok article_link
       else Ok article_link) ;;
    article_link <-
      (if negb (truthy article_link) then
         post_id <- get post_data "id" JNull ;;
         Ok (JStr ("Link construction failed (feedId: " ++ str feed_id
                     ++ ", postId: " ++ str post_id ++ ")"))
       else Ok article_link) ;;
    Ok (Some (JObj [("title", title); ("author", author_name);
                    ("link", article_link)])).

(** The loop itself: [processed_articles] grows by [append]; an exception
    in one item ends the loop. *)
Fixpoint process_items (items : list json) (processed_articles : list json)
  : result (list json) :=
  match items with
  | [] => Ok processed_articles
  | item :: rest =>
      article <- process_item item ;;
      process_items rest
        (match article with
         | Some a => processed_articles ++ [a]
         | None => processed_articles
         end)%list
  end.

(** Lines 150 to 190: from the decoded payload to the answer. *)
Definition normalize (data_from_medium : json) : result (json * Z) :=
  data <- get data_from_medium "data" (JObj []) ;;
  tag_feed <- get data "tagFeed" (JObj []) ;;
  items <- get tag_feed "items" (JArr []) ;;
  _ <- len items ;;
  items <- iter items ;;
  processed_articles <- process_items items [] ;;
  Ok (JObj [("articles", JArr processed_articles)], 200%Z).

(** The test of line 144: ["errors" in d and d["errors"]]. *)
Definition has_graphql_errors (data_from_medium : json) : result bool :=
  present <- contains "errors" data_from_medium ;;
  if present then
    errors <- getitem data_from_medium "errors" ;;
    Ok (truthy errors)
  else Ok false.

(** Lines 144 to 190: what the handler does with the decoded payload. *)
Definition interpret_payload (data_from_medium : json) : result (json * Z) :=
  graphql_errors <- has_graphql_errors data_from_medium ;;
  if graphql_errors then
    errors <- getitem data_from_medium "errors" ;;
    Ok (error_details "GraphQL error(s) received from Medium." errors, 400%Z)
  else normalize data_from_medium.

Section Handler.

(** [json.loads]. *)
Variable json_loads : string -> result json.

(** The value of the environment variable, [None] when it is not set. *)
Variable MEDIUM_API_KEY : option string.

(** The [try] block of lines 131 to 190, from the outcome of
    [requests.post]. *)
Definition try_block (posted : result upstream_response) : result (json * Z) :=
  response_from_medium <- posted ;;
  _ <- raise_for_status response_from_medium ;;
  let cleaned_text := clean_medium_response (text response_from_medium) in
  data_from_medium <- json_loads cleaned_text ;;
  interpret_payload data_from_medium.

(** The [except] clauses of lines 192 to 219, tried in their order. In the
    first one line 194 reads [e.response.status_code] before the test of
    line 201, and line 196 calls [e.response.json()] under an [except] that
    catches [JSONDecodeError] only: another exception of that call leaves
    the handler. *)
Definition except_clauses (attempt : result (json * Z)) : result (json * Z) :=
  match attempt with
  | Ok answer => Ok answer
  | Raise (HTTPError msg e_response) =>
      match e_response with
      | None => Raise AttributeError
      | Some r =>
          match json_raises r with
          | None | Some (JSONDecodeError _) =>
              Ok (error_details
                    "Failed to communicate effectively with Medium API."
                    (JStr msg), status_code r)
          | Some e => Raise e
          end
      end
  | Raise Timeout =>
      Ok (error_details "Request to Medium API timed out."
            (JStr "The upstream server took too long to respond."), 504%Z)
  | Raise (RequestException msg) =>
      Ok (error_details
            "Network error connecting to Medium API. Check internet connection."
            (JStr msg), 503%Z)
  | Raise (JSONDecodeError msg) =>
      Ok (error_details "Invalid or unexpected response format from Medium."
            (JStr msg), 502%Z)
  | Raise _ =>
      Ok (error_details "An unexpected internal server error occurred."
            (JStr "Please check server logs."), 500%Z)
  end.

(** [not MEDIUM_API_KEY]. *)
Definition api_key_missing : bool :=
  match MEDIUM_API_KEY with
  | None => true
  | Some key => String.eqb key ""
  end.

Definition api_key : string :=
  match MEDIUM_API_KEY with
  | None => "None"
  | Some key => key
  end.

(** [get_tag_feed_handler], from the outcome of [request.get_json()]. *)
Definition get_tag_feed_handler (client : result json) : run :=
  if api_key_missing then
    Done (Ok (error_body "Server configuration error: API key missing.", 500%Z))
  else
    match client with
    | Raise _ => Done (Ok (error_body "Invalid JSON format in request body.", 400%Z))
    | Ok client_data =>
        if negb (truthy client_data) then
          Done (Ok (error_body
                      "No JSON data provided in request body or invalid JSON format.",
                    400%Z))
        else
          match get client_data "tagSlug" JNull with
          | Raise e => Done (Raise e)
          | Ok tag_slug =>
              match get client_data "mode" JNull with
              | Raise e => Done (Raise e)
              | Ok mode =>
                  if negb (truthy tag_slug) then
                    Done (Ok (error_body "Missing 'tagSlug' in request body.", 400%Z))
                  else if negb (truthy mode) then
                    Done (Ok (error_body "Missing 'mode' in request body.", 400%Z))
                  else
                    let mode := upper (strip (str mode)) in
                    if negb (in_valid_modes mode) then
                      Done (Ok (error_body
                                  ("Invalid mode. Must be one of: "
                                     ++ join ", " valid_modes), 400%Z))
                    else
                      let variables :=
                        JObj [("tagSlug", tag_slug); ("mode", JStr mode)] in
                      let payload :=
                        JObj [("query", JStr graphql_query);
                              ("variables", variables)] in
                      let request_headers_to_medium :=
                        List.app BASE_REQUEST_HEADERS
                          [("Authorization", "Bearer " ++ api_key)] in
                      Call (mkRequest MEDIUM_GRAPHQL_ENDPOINT
                              request_headers_to_medium payload 25)
                           (fun posted => except_clauses (try_block posted))
              end
          end
    end.

(** The run against an upstream that answers [upstream req]: the value the
    view function returns, and the calls it made. *)
Definition serve (upstream : request -> result upstream_response)
  (client : result json) : result (json * Z) * list request :=
  match get_tag_feed_handler client with
  | Done r => (r, [])
  | Call req k => (k (upstream req), [req])
  end.

End Handler.

(** ** Vocabulary of the statements *)

(** [post.creator.<key>], when [creator] is an object. *)
Definition creator_field (post : list (string * json)) (key : string)
  : option json :=
  match dict_get post "creator" with
  | Some (JObj creator) => dict_get creator key
  | _ => None
  end.

(** Three ways a field can be said to be there: its key is in the object;
    its key is there with a value other than [null]; its key is there with
    a value that is not empty (what [if v] tests). *)
Definition has_key (o : option json) : bool :=
  match o with
  | Some _ => true
  | None => false
  end.

Definition not_null (o : option json) : bool :=
  match o with
  | Some JNull | None => false
  | Some _ => true
  end.

Definition filled (o : option json) : bool :=
  match o with
  | Some v => truthy v
  | None => false
  end.

(** The value of [d.get(key)]. *)
Definition or_null (o : option json) : json :=
  match o with
  | Some v => v
  | None => JNull
  end.

(** What an f-string prints for a field fetched by [d.get(key)]. *)
Definition shown (o : option json) : string :=
  match o with
  | Some v => str v
  | None => "None"
  end.

(** An item without a post: the key is missing or its value is [null]. *)
Definition lacks_post (item : json) : Prop :=
  exists kvs, item = JObj kvs /\
    (dict_get kvs "post" = None \/ dict_get kvs "post" = Some JNull).

(** The upstream schema makes [mediumUrl] a string or [null]. *)
Definition url_is_text (item : json) : Prop :=
  forall kvs post v,
    item = JObj kvs -> dict_get kvs "post" = Some (JObj post) ->
    dict_get post "mediumUrl" = Some v ->
    v = JNull \/ exists s, v = JStr s.

(** An item of the data model: an object whose post is missing, empty or an
    object, the creator of the post being missing or an object. *)
Definition upstream_item (item : json) : Prop :=
  exists kvs, item = JObj kvs /\
    (filled (dict_get kvs "post") = false \/
     exists post, dict_get kvs "post" = Some (JObj post) /\ post <> [] /\
       (dict_get post "creator" = None \/
        exists creator, dict_get post "creator" = Some (JObj creator))).

(** The link of an article is a string that is not empty. *)
Definition link_is_text (article : json) : Prop :=
  exists link, get article "link" JNull = Ok (JStr link) /\ link <> "".

(** Upstream answered with a status of the 4xx or 5xx class. *)
Definition http_error (r : upstream_response) : Prop :=
  (400 <= status_code r < 600)%Z.

(** A body made of an [error] and its [details]. *)
Definition structured_error (body : json) : Prop :=
  exists msg details, body = error_details msg details.

(** The articles among the outcomes of the items, in their order. *)
Fixpoint emitted (outcomes : list (option json)) : list json :=
  match outcomes with
  | [] => []
  | Some article :: rest => article :: emitted rest
  | None :: rest => emitted rest
  end.

(** A segment of the path [data.tagFeed.items] whose key is not there. *)
Definition path_broken (payload : list (string * json)) : bool :=
  match dict_get payload "data" with
  | None => true
  | Some (JObj data) =>
      match dict_get data "tagFeed" with
      | None => true
      | Some (JObj feed) => negb (has_key (dict_get feed "items"))
      | Some _ => false
      end
  | Some _ => false
  end.


(** ** Statements of the specification that the code does not meet, as
    they are written *)

(** The link asked for, for a reading [present] of "the field is present";
    [None] stands for the diagnostic placeholder. *)
Definition link_as_written (present : option json -> bool)
  (feed_id : option json) (post : list (string * json)) : option string :=
  if filled (dict_get post "mediumUrl") then
    Some (shown (dict_get post "mediumUrl"))
  else if present (dict_get post "uniqueSlug") then
    if present (creator_field post "username") then
      Some ("https://" ++ shown (creator_field post "username") ++ ".medium.com/"
              ++ shown (dict_get post "uniqueSlug"))
    else
      Some ("https://medium.com/p/"
              ++ (if present (dict_get post "id")
                  then shown (dict_get post "id")
                  else shown (dict_get post "uniqueSlug")))
  else if present feed_id then
    Some ("https://medium.com/p/" ++ shown feed_id)
  else None.

Definition is_link_as_written (present : option json -> bool)
  (feed_id : option json) (post : list (string * json)) (link : json) : Prop :=
  match link_as_written present feed_id post with
  | Some href => link = JStr href
  | None =>
      exists placeholder, link = JStr placeholder /\
        is_substring (shown feed_id) placeholder = true /\
        is_substring (shown (dict_get post "id")) placeholder = true
  end.

(** The statement on links, at one item. *)
Definition link_claim (present : option json -> bool)
  (item : list (string * json)) : Prop :=
  forall post, dict_get item "post" = Some (JObj post) ->
    exists article link,
      process_item (JObj item) = Ok (Some article) /\
      get article "link" JNull = Ok link /\
      is_link_as_written present (dict_get item "feedId") post link.

(** The title or the author asked for: the field when it is present and not
    empty, the placeholder when it is absent, empty or [null]. *)
Definition text_as_written (field : option json) (placeholder : string) : json :=
  match field with
  | Some v => if truthy v then v else JStr placeholder
  | None => JStr placeholder
  end.

(** The statement on titles and authors, at one item. *)
Definition title_author_claim (item : list (string * json)) : Prop :=
  forall post, dict_get item "post" = Some (JObj post) ->
    exists article,
      process_item (JObj item) = Ok (Some article) /\
      get article "title" JNull
      = Ok (text_as_written (dict_get post "title") "Untitled") /\
      get article "author" JNull
      = Ok (text_as_written (creator_field post "name") "Unknown Author").


(** The statement on a broken path, at one payload. *)
Definition empty_feed_claim (payload : list (string * json)) : Prop :=
  path_broken payload = true ->
  forall json_loads key client req k r,
    get_tag_feed_handler json_loads key client = Call req k ->
    ~ http_error r ->
    json_loads (clean_medium_response (text r)) = Ok (JObj payload) ->
    k (Ok r) = Ok (JObj [("articles", JArr [])], 200%Z).

(** ** Inputs used in the examples *)

(** A decoder that accepts every text and yields [payload], and one that
    rejects every text. *)
Definition decode_as (payload : json) : string -> result json :=
  fun _ => Ok payload.

Definition decode_fails (msg : string) : string -> result json :=
  fun _ => Raise (JSONDecodeError msg).

(** A decoder for the two texts of the examples on cleaning. *)
Definition decode_empty_object (body : string) : result json :=
  if String.eqb body "{}" then Ok (JObj [])
  else Raise (JSONDecodeError "Expecting value: line 1 column 1 (char 0)").

Definition ok_response (body : string) : upstream_response :=
  mkResponse 200 "OK" MEDIUM_GRAPHQL_ENDPOINT body None.

Definition rust_hot : json :=
  JObj [("tagSlug", JStr "rust"); ("mode", JStr "hot")].

Definition secret : option string := Some "secret".

Definition item_alice : list (string * json) :=
  [("feedId", JStr "f1");
   ("post", JObj [("id", JStr "123"); ("title", JStr "On proxies");
                  ("uniqueSlug", JStr "on-proxies-1a2b");
                  ("creator", JObj [("name", JStr "Alice");
                                    ("username", JStr "alice")])])].

Definition item_without_post : list (string * json) :=
  [("feedId", JStr "f2"); ("post", JNull)].

Definition item_blank_slug : list (string * json) :=
  [("feedId", JStr "f1");
   ("post", JObj [("uniqueSlug", JStr "");
                  ("creator", JObj [("username", JStr "alice")])])].

Definition item_blank_id : list (string * json) :=
  [("post", JObj [("id", JStr ""); ("uniqueSlug", JStr "on-proxies-1a2b")])].

Definition item_empty_post : list (string * json) :=
  [("feedId", JStr "f1"); ("post", JObj [])].

Definition item_null_creator : list (string * json) :=
  [("feedId", JStr "f1");
   ("post", JObj [("title", JStr "On proxies");
                  ("mediumUrl", JStr "https://medium.com/p/1a2b");
                  ("creator", JNull)])].

Definition item_blank_title : list (string * json) :=
  [("post", JObj [("title", JStr "");
                  ("mediumUrl", JStr "https://medium.com/p/1a2b");
                  ("creator", JObj [("name", JStr "")])])].

Definition item_null_title : list (string * json) :=
  [("post", JObj [("title", JNull);
                  ("mediumUrl", JStr "https://medium.com/p/1a2b");
                  ("creator", JObj [("name", JNull)])])].

Definition item_untitled : list (string * json) :=
  [("post", JObj [("mediumUrl", JStr "https://medium.com/p/1a2b");
                  ("creator", JObj [("username", JStr "alice")])])].

Definition feed_of (items : list json) : list (string * json) :=
  [("data", JObj [("tagFeed", JObj [("items", JArr items)])])].

Definition payload_errors_only : list (string * json) :=
  [("errors", JArr [JObj [("message", JStr "Tag not found")]])].

Definition payload_null_feed : list (string * json) :=
  [("data", JObj [("tagFeed", JNull)])].


(** ** Vocabulary of the further properties *)

(** Text made of whitespace only. *)
Fixpoint all_space (s : string) : bool :=
  match s with
  | EmptyString => true
  | String c rest => isspace c && all_space rest
  end.

(** The body [{"tagSlug": tag_slug, "mode": mode}] of a request. *)
Definition request_body (tag_slug mode : json) : json :=
  JObj [("tagSlug", tag_slug); ("mode", mode)].

(** A character that is not whitespace and that, uppercased, begins none of
    the valid modes. *)
Definition starts_no_mode (c : ascii) : bool :=
  negb (isspace c)
  && negb (Ascii.eqb (upper_char c) "H")
  && negb (Ascii.eqb (upper_char c) "N")
  && negb (Ascii.eqb (upper_char c) "T").

(** The exceptions of the library [requests]. *)
Definition from_requests (e : exn) : bool :=
  match e with
  | HTTPError _ _ | Timeout | RequestException _ => true
  | _ => false
  end.

(** What [requests.post] comes back with: a response, a timeout, or another
    failure of the request. *)
Definition post_outcome (posted : result upstream_response) : Prop :=
  match posted with
  | Ok _ => True
  | Raise Timeout => True
  | Raise (RequestException _) => True
  | Raise _ => False
  end.

(** An object with the keys [title], [author] and [link], in this order. *)
Definition is_article (article : json) : Prop :=
  exists title author link,
    article = JObj [("title", title); ("author", author); ("link", link)].

(** The test of line 156 on an item that is an object. *)
Definition has_post (item : json) : bool :=
  match item with
  | JObj kvs => filled (dict_get kvs "post")
  | _ => false
  end.

(** The answer of the last [except] clause. *)
Definition internal_error : json * Z :=
  (error_details "An unexpected internal server error occurred."
     (JStr "Please check server logs."), 500%Z).

(** ** Vocabulary of the statements: ASCII text, scalars, quiet responses *)

(** Text whose characters are all ASCII: where [strip], [upper] and [repr]
    are Python's. *)
Fixpoint ascii_text (s : string) : bool :=
  match s with
  | EmptyString => true
  | String c rest => Nat.ltb (nat_of_ascii c) 128 && ascii_text rest
  end.

(** A value that is not an array nor an object: [str] prints it without
    any [repr] of a text. *)
Definition scalar (v : json) : bool :=
  match v with
  | JArr _ | JObj _ => false
  | _ => true
  end.

(** A field that is missing, or holds a scalar. *)
Definition plain (o : option json) : bool :=
  match o with
  | Some v => scalar v
  | None => true
  end.

(** The call [r.json()] returns, or fails the way line 198 catches. *)
Definition json_quiet (r : upstream_response) : Prop :=
  match json_raises r with
  | None | Some (JSONDecodeError _) => True
  | Some _ => False
  end.

(** The statement on the links of the articles, at one list of items, as it
    is written: every link is a non-empty string. *)
Definition link_text_claim (items : list json) : Prop :=
  forall articles,
    process_items items [] = Ok articles -> Forall link_is_text articles.

(** A post whose [mediumUrl] is a number. *)
Definition item_numeric_url : list (string * json) :=
  [("feedId", JStr "f1");
   ("post", JObj [("title", JStr "On proxies"); ("mediumUrl", JInt 5)])].

(** A post with a numeric [id], a slug and no username. *)
Definition item_numeric_id : list (string * json) :=
  [("post", JObj [("id", JInt 123); ("uniqueSlug", JStr "on-proxies-1a2b")])].

(** [n] opening brackets. *)
Fixpoint nested (n : nat) : string :=
  match n with
  | O => EmptyString
  | S m => String "[" (nested m)
  end.

(** A 403 whose body is JSON nested too deep for the decoder: [json()]
    raises [RecursionError] on it. *)
Definition forbidden_too_deep : upstream_response :=
  mkResponse 403 "Forbidden" MEDIUM_GRAPHQL_ENDPOINT (nested (100 * 1000))
    (Some RecursionError).

(** A 403 whose body is not JSON. *)
Definition forbidden : upstream_response :=
  mkResponse 403 "Forbidden" MEDIUM_GRAPHQL_ENDPOINT "denied"
    (Some (JSONDecodeError "Expecting value: line 1 column 1 (char 0)")).

(** ** Properties of [clean_medium_response] *)

Lemma prefix_split (p s : string) :
  String.prefix p s = true -> exists t, s = p ++ t.
Proof.
  revert s; induction p as [|c p IH]; intros s H.
  - exists s; reflexivity.
  - destruct s as [|d s]; simpl in H; [discriminate|].
    destruct (ascii_dec c d) as [->|]; [|discriminate].
    destruct (IH s H) as [t ->].
    exists t; reflexivity.
Qed.

Lemma prefix_app (p t : string) : String.prefix p (p ++ t) = true.
Proof.
  induction p as [|c p IH]; simpl.
  - destruct t; reflexivity.
  - destruct (ascii_dec c c); [exact IH | congruence].
Qed.

Lemma drop_app (p t : string) : drop (String.length p) (p ++ t) = t.
Proof.
  induction p as [|c p IH]; simpl; [destruct t; reflexivity | exact IH].
Qed.

Lemma length_app (s t : string) :
  String.length (s ++ t) = String.length s + String.length t.
Proof.
  induction s as [|c s IH]; simpl; [reflexivity | now rewrite IH].
Qed.

Lemma clean_strips (t : string) :
  clean_medium_response (prefix_to_remove ++ t) = t.
Proof.
  unfold clean_medium_response.
  rewrite prefix_app.
  apply drop_app.
Qed.

Lemma clean_keeps (body : string) :
  (forall t, body <> prefix_to_remove ++ t) ->
  clean_medium_response body = body.
Proof.
  intros H; unfold clean_medium_response.
  destruct (String.prefix prefix_to_remove body) eqn:E; [|reflexivity].
  destruct (prefix_split _ _ E) as [t ->].
  now destruct (H t).
Qed.

(** C4. A body that starts with the literal prefix loses exactly that prefix,
    any other body is returned as it is, and the handler hands the cleaned
    text, not the raw one, to [json.loads]. *)
Theorem clean_medium_response_spec :
  (forall t, clean_medium_response ("])}while(1);</x>" ++ t) = t) /\
  (forall body, (forall t, body <> "])}while(1);</x>" ++ t) ->
     clean_medium_response body = body) /\
  (forall json_loads r, raise_for_status r = Ok tt ->
     (forall t, text r = "])}while(1);</x>" ++ t ->
        try_block json_loads (Ok r) = bind (json_loads t) interpret_payload) /\
     ((forall t, text r <> "])}while(1);</x>" ++ t) ->
        try_block json_loads (Ok r) = bind (json_loads (text r)) interpret_payload)).
Proof.
  split; [exact clean_strips|].
  split; [exact clean_keeps|].
  intros json_loads r Hstatus; split.
  - intros t Ht; unfold try_block; simpl.
    rewrite Hstatus; simpl.
    rewrite Ht; fold prefix_to_remove; rewrite clean_strips; reflexivity.
  - intros Hno; unfold try_block; simpl.
    rewrite Hstatus; simpl.
    rewrite (clean_keeps _ Hno); reflexivity.
Qed.

Lemma clean_medium_response_spec_witness :
  clean_medium_response "{}" = "{}" /\
  try_block decode_empty_object (Ok (ok_response "])}while(1);</x>{}"))
  = Ok (JObj [("articles", JArr [])], 200%Z) /\
  try_block decode_empty_object (Ok (ok_response "{}"))
  = Ok (JObj [("articles", JArr [])], 200%Z).
Proof.
  destruct clean_medium_response_spec as (_ & Hkeep & Hrun).
  split; [|split].
  - apply Hkeep; intros t; simpl; discriminate.
  - destruct (Hrun decode_empty_object (ok_response "])}while(1);</x>{}")
                eq_refl) as [Hstrip _].
    rewrite (Hstrip "{}" eq_refl); reflexivity.
  - destruct (Hrun decode_empty_object (ok_response "{}") eq_refl) as [_ Hsame].
    rewrite Hsame; [reflexivity|].
    intros t; simpl; discriminate.
Defined.

(** C9. One call removes one occurrence of the prefix and no more: a body
    that begins with the prefix twice still begins with it once after
    cleaning, so cleaning twice differs from cleaning once. *)
Theorem clean_medium_response_once :
  (forall t, clean_medium_response ("])}while(1);</x>" ++ t) = t) /\
  (forall t, clean_medium_response ("])}while(1);</x>" ++ "])}while(1);</x>" ++ t)
             = "])}while(1);</x>" ++ t) /\
  (forall t, String.prefix "])}while(1);</x>"
               (clean_medium_response
                  ("])}while(1);</x>" ++ "])}while(1);</x>" ++ t)) = true) /\
  (forall t, clean_medium_response
               (clean_medium_response
                  ("])}while(1);</x>" ++ "])}while(1);</x>" ++ t))
             <> clean_medium_response
                  ("])}while(1);</x>" ++ "])}while(1);</x>" ++ t)).
Proof.
  fold prefix_to_remove.
  assert (Htwice : forall t,
             clean_medium_response (prefix_to_remove ++ prefix_to_remove ++ t)
             = prefix_to_remove ++ t) by (intros t; apply clean_strips).
  split; [|split; [|split]].
  - exact clean_strips.
  - exact Htwice.
  - intros t; rewrite Htwice; apply prefix_app.
  - intros t; rewrite Htwice, clean_strips.
    intros H; apply (f_equal String.length) in H.
    rewrite length_app in H; simpl in H; lia.
Qed.

(** ** Facts on the Python operations *)

Lemma truthy_or_null o : truthy (or_null o) = filled o.
Proof. destruct o; reflexivity. Qed.

Lemma str_or_null o : str (or_null o) = shown o.
Proof. destruct o; reflexivity. Qed.

Lemma filled_text o s : o = Some (JStr s) -> s <> "" -> filled o = true.
Proof.
  intros -> Hs; simpl.
  destruct (String.eqb_spec s ""); [contradiction | reflexivity].
Qed.

Lemma truthy_text s : truthy (JStr s) = true -> s <> "".
Proof. intros H ->; discriminate. Qed.

Lemma truthy_text_app (s t : string) : s <> "" -> truthy (JStr (s ++ t)) = true.
Proof. destruct s; [congruence | reflexivity]. Qed.

Lemma bind_ok {A B} (r : result A) (k : A -> result B) b :
  bind r k = Ok b -> exists a, r = Ok a /\ k a = Ok b.
Proof. destruct r; simpl; [eauto | discriminate]. Qed.

Lemma get_raises d key default e :
  get d key default = Raise e -> e = AttributeError.
Proof. destruct d; simpl; congruence. Qed.

Lemma get_ok d key default v :
  get d key default = Ok v ->
  exists kvs, d = JObj kvs /\
    v = match dict_get kvs key with Some x => x | None => default end.
Proof. destruct d; simpl; try discriminate. intros [= <-]; eauto. Qed.

(** ** The loop over the items *)

(** Decides the tests of [process_item] that are left in the goal. *)
Ltac decide_tests :=
  repeat match goal with
    | |- context [if negb (truthy ?v) then _ else _] =>
        destruct (truthy v); cbn [negb bind]
    | |- context [if truthy ?v then _ else _] =>
        destruct (truthy v); cbn [negb bind]
    end.

Lemma process_item_skips kvs :
  filled (dict_get kvs "post") = false -> process_item (JObj kvs) = Ok None.
Proof.
  intros H; unfold process_item.
  change (get (JObj kvs) "post" JNull) with (Ok (or_null (dict_get kvs "post"))).
  cbn [bind]; rewrite truthy_or_null, H; reflexivity.
Qed.

Lemma lacks_post_skipped item : lacks_post item -> process_item item = Ok None.
Proof.
  intros (kvs & -> & H); apply process_item_skips.
  destruct H as [-> | ->]; reflexivity.
Qed.

(** [process_item] raises nothing but the [AttributeError] of a [get] on a
    value that is not a dict. *)
Lemma process_item_raises item e :
  process_item item = Raise e -> e = AttributeError.
Proof.
  unfold process_item.
  destruct (get item "post" JNull) as [post_data|e0] eqn:Hpost; cbn [bind];
    [|intros [= <-]; exact (get_raises _ _ _ _ Hpost)].
  destruct (truthy post_data); cbn [negb]; [|discriminate].
  destruct (get item "feedId" JNull) as [feed_id|e0] eqn:Hfeed; cbn [bind];
    [|intros [= <-]; exact (get_raises _ _ _ _ Hfeed)].
  destruct (get post_data "title" (JStr "Untitled")) as [title|e0] eqn:Htitle;
    cbn [bind]; [|intros [= <-]; exact (get_raises _ _ _ _ Htitle)].
  destruct (get post_data "creator" (JObj [])) as [creator|e0] eqn:Hcreator;
    cbn [bind]; [|intros [= <-]; exact (get_raises _ _ _ _ Hcreator)].
  destruct (get creator "name" (JStr "Unknown Author")) as [name|e0] eqn:Hname;
    cbn [bind]; [|intros [= <-]; exact (get_raises _ _ _ _ Hname)].
  destruct (get_ok _ _ _ _ Htitle) as (post & -> & _).
  destruct (get_ok _ _ _ _ Hname) as (c & -> & _).
  cbn [get bind]; decide_tests; discriminate.
Qed.

Lemma process_item_null_creator item post :
  dict_get item "post" = Some (JObj post) ->
  dict_get post "creator" = Some JNull ->
  process_item (JObj item) = Raise AttributeError.
Proof.
  intros Hpost Hcreator.
  assert (Htruthy : truthy (JObj post) = true)
    by (destruct post; [discriminate | reflexivity]).
  unfold process_item.
  change (get (JObj item) "post" JNull)
    with (Ok (or_null (dict_get item "post"))).
  rewrite Hpost; cbn [bind or_null]; rewrite Htruthy; cbn [negb get bind].
  rewrite Hcreator; reflexivity.
Qed.

(** An item that yields an article has a non-empty post object whose creator
    is missing or an object. *)
Lemma process_item_emits_inv item article :
  process_item item = Ok (Some article) ->
  exists kvs post,
    item = JObj kvs /\ dict_get kvs "post" = Some (JObj post) /\ post <> [] /\
    (dict_get post "creator" = None \/
     exists creator, dict_get post "creator" = Some (JObj creator)).
Proof.
  unfold process_item; intros H.
  apply bind_ok in H; destruct H as (post_data & Hpost & H).
  destruct (get_ok _ _ _ _ Hpost) as (kvs & -> & Hdata).
  destruct (truthy post_data) eqn:Htruthy; cbn [negb] in H; [|discriminate].
  apply bind_ok in H; destruct H as (feed_id & _ & H).
  apply bind_ok in H; destruct H as (title & Htitle & H).
  destruct (get_ok _ _ _ _ Htitle) as (post & -> & _).
  apply bind_ok in H; destruct H as (creator & Hcreator & H).
  apply bind_ok in H; destruct H as (name & Hname & _).
  destruct (get_ok _ _ _ _ Hname) as (c & -> & _).
  exists kvs, post; split; [reflexivity|].
  split; [destruct (dict_get kvs "post"); [congruence | discriminate]|].
  split; [intros ->; discriminate|].
  cbn [get] in Hcreator.
  destruct (dict_get post "creator") as [v|]; [right | left; reflexivity].
  exists c; congruence.
Qed.

(** Runs [process_item] on an item whose post is a non-empty object and whose
    creator is missing or an object, along the five ways to a link; leaves
    what is to be shown of the title, the author and the link. *)
Ltac run_item Hpost Hne Hcreator :=
  let Hposted := fresh "Hposted" in
  let Huser := fresh "Huser" in
  let creator := fresh "creator" in
  let Hget := fresh "Hget" in
  let Hfield := fresh "Hfield" in
  match type of Hpost with
  | dict_get ?item "post" = Some (JObj ?post) =>
      assert (Hposted : truthy (JObj post) = true)
        by (destruct post; [now destruct Hne | reflexivity]);
      assert (Huser : exists creator,
                 get (JObj post) "creator" (JObj []) = Ok (JObj creator) /\
                 forall key, dict_get creator key = creator_field post key)
        by (unfold creator_field; cbn [get];
            destruct Hcreator as [-> | [? ->]]; eexists; split; reflexivity);
      destruct Huser as (creator & Hget & Hfield);
      unfold process_item;
      change (get (JObj item) "post" JNull)
        with (Ok (or_null (dict_get item "post")));
      rewrite Hpost; cbn [bind or_null]; rewrite Hposted; cbn [negb];
      rewrite Hget; cbn [get bind];
      rewrite !Hfield;
      fold (or_null (dict_get post "mediumUrl"))
           (or_null (dict_get post "uniqueSlug"))
           (or_null (creator_field post "username"))
           (or_null (dict_get item "feedId"))
           (or_null (dict_get post "id"));
      rewrite !truthy_or_null, !str_or_null;
      destruct (filled (dict_get post "mediumUrl")) eqn:Eurl;
        [|destruct (filled (dict_get post "uniqueSlug")) eqn:Eslug;
          [destruct (filled (creator_field post "username")) eqn:Euser
          |destruct (filled (dict_get item "feedId")) eqn:Efeed]];
      cbn [negb bind];
      try rewrite truthy_or_null, Eurl;
      try (rewrite truthy_text_app by discriminate);
      cbn [negb bind];
      (eexists _, _, _; split; [reflexivity|])
  end.

Lemma filled_value o v : o = Some v -> truthy v = true -> filled o = true.
Proof. intros -> H; exact H. Qed.

(** A field that holds a non-empty value is filled. *)
Ltac value_facts :=
  repeat match goal with
    | H : ?o = Some ?v, Hv : truthy ?v = true |- _ =>
        lazymatch goal with
        | _ : filled o = true |- _ => fail
        | _ => pose proof (filled_value o v H Hv)
        end
    end.

(** A field that holds a non-empty string is filled. *)
Ltac field_facts :=
  repeat match goal with
    | H : ?o = Some (JStr ?s), Hs : ?s <> "" |- _ =>
        lazymatch goal with
        | _ : filled o = true |- _ => fail
        | _ => pose proof (filled_text o s H Hs)
        end
    end.

Lemma emitted_link (item post : list (string * json)) :
  dict_get item "post" = Some (JObj post) ->
  post <> [] ->
  (dict_get post "creator" = None \/
   exists creator, dict_get post "creator" = Some (JObj creator)) ->
  exists title author link,
    process_item (JObj item)
    = Ok (Some (JObj [("title", title); ("author", author); ("link", link)])) /\
    truthy link = true /\
    ((forall v, dict_get post "mediumUrl" = Some v ->
        v = JNull \/ exists s, v = JStr s) ->
     exists s, link = JStr s /\ s <> "").
Proof.
  intros Hpost Hne Hcreator.
  run_item Hpost Hne Hcreator.
  1: { rewrite truthy_or_null; split; [exact Eurl|].
       intros Htext.
       destruct (dict_get post "mediumUrl") as [v|]; [|discriminate].
       destruct (Htext v eq_refl) as [-> | [s ->]]; [discriminate|].
       exists s; split; [reflexivity | now apply truthy_text]. }
  all: split; [reflexivity|]; intros _; eexists; split;
    [reflexivity | discriminate].
Qed.

Lemma process_item_total item :
  upstream_item item -> exists outcome, process_item item = Ok outcome.
Proof.
  intros (kvs & -> & [Hskip | (post & Hpost & Hne & Hcreator)]).
  - exists None; now apply process_item_skips.
  - destruct (emitted_link _ _ Hpost Hne Hcreator)
      as (title & author & link & Hrun & _).
    eexists; exact Hrun.
Qed.

Lemma emitted_length outcomes :
  List.length (emitted outcomes) <= List.length outcomes.
Proof.
  induction outcomes as [|[a|] rest IH]; simpl; lia.
Qed.

Lemma emitted_length_skipped outcomes :
  In None outcomes -> List.length (emitted outcomes) < List.length outcomes.
Proof.
  induction outcomes as [|[a|] rest IH]; simpl; intros Hin.
  - contradiction.
  - destruct Hin as [|Hin]; [discriminate|]. specialize (IH Hin); lia.
  - pose proof (emitted_length rest); lia.
Qed.

(** The loop, item by item. *)
Lemma process_items_outcomes items :
  forall processed articles,
    process_items items processed = Ok articles ->
    exists outcomes,
      Forall2 (fun item outcome => process_item item = Ok outcome) items outcomes /\
      articles = (processed ++ emitted outcomes)%list.
Proof.
  induction items as [|item rest IH]; intros processed articles H; simpl in H.
  - injection H as <-. exists []; split; [constructor | now rewrite app_nil_r].
  - destruct (process_item item) as [outcome|e] eqn:Hitem; [|discriminate].
    cbn [bind] in H.
    destruct (IH _ _ H) as (outcomes & Hall & ->).
    exists (outcome :: outcomes); split; [now constructor|].
    destruct outcome; simpl; [now rewrite <- app_assoc | reflexivity].
Qed.

Lemma process_items_total items :
  Forall upstream_item items ->
  forall processed, exists articles, process_items items processed = Ok articles.
Proof.
  induction 1 as [|item rest Hitem _ IH]; intros processed; simpl.
  - eauto.
  - destruct (process_item_total _ Hitem) as [outcome ->]; cbn [bind].
    apply IH.
Qed.

Lemma process_items_poisoned items item :
  In item items -> process_item item = Raise AttributeError ->
  forall processed, process_items items processed = Raise AttributeError.
Proof.
  induction items as [|first rest IH]; intros Hin Hitem processed; simpl.
  - contradiction.
  - destruct (process_item first) as [outcome|e] eqn:Hfirst; cbn [bind].
    + destruct Hin as [->|Hin]; [congruence|]. now apply IH.
    + now rewrite (process_item_raises _ _ Hfirst).
Qed.

(** ** The articles *)

(** C1, as amended. An item whose post is the empty object is skipped. For
    an item whose post is a non-empty object and whose creator is missing or
    an object, an article is emitted and its link is, first match wins
    (non-empty is what [if value:] accepts, and a value is put in a link as
    [str] prints it, which is stated for strings, integers and booleans):
    [mediumUrl] itself when it is non-empty; else, when [uniqueSlug] is
    non-empty, the author's subdomain when [username] is non-empty, and
    otherwise the [/p/] address of [id] when it is non-empty or of the slug
    when the key [id] is missing; else the [/p/] address of [feedId] when it
    is non-empty; else, [mediumUrl], [uniqueSlug] and [feedId] being all
    missing or empty, the diagnostic placeholder with [feedId] and [id],
    a missing value and [null] printed as None. *)
Theorem link_priority_chain (item post : list (string * json)) :
  dict_get item "post" = Some (JObj post) ->
  (post = [] -> process_item (JObj item) = Ok None) /\
  (post <> [] ->
   (dict_get post "creator" = None \/
    exists creator, dict_get post "creator" = Some (JObj creator)) ->
   exists title author link,
     process_item (JObj item)
     = Ok (Some (JObj [("title", title); ("author", author); ("link", link)])) /\
     (forall url, dict_get post "mediumUrl" = Some url -> truthy url = true ->
        link = url) /\
     (filled (dict_get post "mediumUrl") = false ->
        (forall slug, dict_get post "uniqueSlug" = Some slug ->
           truthy slug = true -> scalar slug = true ->
           (forall username,
              creator_field post "username" = Some username ->
              truthy username = true -> scalar username = true ->
              link = JStr ("https://" ++ str username ++ ".medium.com/"
                             ++ str slug)) /\
           (filled (creator_field post "username") = false ->
              (forall id, dict_get post "id" = Some id ->
                 truthy id = true -> scalar id = true ->
                 link = JStr ("https://medium.com/p/" ++ str id)) /\
              (dict_get post "id" = None ->
                 link = JStr ("https://medium.com/p/" ++ str slug)))) /\
        (filled (dict_get post "uniqueSlug") = false ->
           (forall feed, dict_get item "feedId" = Some feed ->
              truthy feed = true -> scalar feed = true ->
              link = JStr ("https://medium.com/p/" ++ str feed)) /\
           (filled (dict_get item "feedId") = false ->
            plain (dict_get item "feedId") = true ->
            plain (dict_get post "id") = true ->
            link = JStr ("Link construction failed (feedId: "
                           ++ shown (dict_get item "feedId") ++ ", postId: "
                           ++ shown (dict_get post "id") ++ ")"))))).
Proof.
  intros Hpost; split.
  { intros ->; apply process_item_skips; rewrite Hpost; reflexivity. }
  intros Hne Hcreator.
  run_item Hpost Hne Hcreator.
  1: { split; [|discriminate]. intros url Hurl _; rewrite Hurl; reflexivity. }
  all: (split; [intros url Hurl Turl; value_facts; congruence|]);
    intros _; (split; [intros slug Hslug Tslug _ | intros Hslug; try congruence]).
  - split; [|congruence].
    intros username Huser Tuser _; rewrite Hslug, Huser; reflexivity.
  - split; [intros username Huser Tuser _; value_facts; congruence|].
    intros _; split;
      [intros id Hid _ _; rewrite Hid | intros Hid; rewrite Hid, Hslug];
      reflexivity.
  - value_facts; congruence.
  - split; [|congruence].
    intros feed Hfeed _ _; rewrite Hfeed; reflexivity.
  - value_facts; congruence.
  - split; [|reflexivity].
    intros feed Hfeed Tfeed _; value_facts; congruence.
Qed.

(** The chain at a post with a slug and the creator alice (the link is on
    her subdomain), at a post with a numeric [id] and no username, and at
    the empty post. *)
Lemma link_priority_chain_witness :
  (exists title author,
     process_item (JObj item_alice)
     = Ok (Some (JObj [("title", title); ("author", author);
                       ("link", JStr "https://alice.medium.com/on-proxies-1a2b")]))) /\
  (exists title author,
     process_item (JObj item_numeric_id)
     = Ok (Some (JObj [("title", title); ("author", author);
                       ("link", JStr "https://medium.com/p/123")]))) /\
  process_item (JObj item_empty_post) = Ok None.
Proof.
  split; [|split].
  - destruct (link_priority_chain item_alice _ eq_refl) as [_ Hchain].
    destruct Hchain as (title & author & link & Hrun & _ & Hchain).
    + discriminate.
    + right; eexists; reflexivity.
    + destruct (Hchain eq_refl) as [Hslug _].
      destruct (Hslug (JStr "on-proxies-1a2b") eq_refl eq_refl eq_refl)
        as [Huser _].
      rewrite (Huser (JStr "alice") eq_refl eq_refl eq_refl) in Hrun.
      exists title, author; exact Hrun.
  - destruct (link_priority_chain item_numeric_id _ eq_refl) as [_ Hchain].
    destruct Hchain as (title & author & link & Hrun & _ & Hchain).
    + discriminate.
    + left; reflexivity.
    + destruct (Hchain eq_refl) as [Hslug _].
      destruct (Hslug (JStr "on-proxies-1a2b") eq_refl eq_refl eq_refl)
        as [_ Hnouser].
      destruct (Hnouser eq_refl) as [Hid _].
      rewrite (Hid (JInt 123) eq_refl eq_refl eq_refl) in Hrun.
      exists title, author; exact Hrun.
  - exact (proj1 (link_priority_chain item_empty_post [] eq_refl) eq_refl).
Defined.

(** C1, as it is written, fails whatever "present" means. If an empty field
    counts as present, an empty [uniqueSlug] should give the author's
    subdomain, and the code falls through to [feedId]; if it does not, an
    empty [id] should give way to the slug, and the code prints the empty
    [id]. An empty post object is dropped, and a [null] creator makes the
    item raise: no article is emitted for either. *)
Lemma link_claim_counterexample :
  ~ link_claim has_key item_blank_slug /\
  ~ link_claim not_null item_blank_slug /\
  ~ link_claim filled item_blank_id /\
  (forall present, ~ link_claim present item_empty_post) /\
  (forall present, ~ link_claim present item_null_creator).
Proof.
  assert (Hslug : forall present, present (Some (JStr "")) = true ->
             present (Some (JStr "alice")) = true ->
             ~ link_claim present item_blank_slug).
  { intros present H1 H2 H.
    destruct (H _ eq_refl) as (article & link & Hrun & Hlink & Hspec).
    vm_compute in Hrun; injection Hrun as <-.
    vm_compute in Hlink; injection Hlink as <-.
    unfold is_link_as_written, link_as_written in Hspec; cbn in Hspec.
    rewrite H1, H2 in Hspec; discriminate. }
  split; [now apply Hslug|]. split; [now apply Hslug|].
  split; [|split].
  - intros H.
    destruct (H _ eq_refl) as (article & link & Hrun & Hlink & Hspec).
    vm_compute in Hrun; injection Hrun as <-.
    vm_compute in Hlink; injection Hlink as <-.
    vm_compute in Hspec; discriminate.
  - intros present H.
    destruct (H _ eq_refl) as (article & link & Hrun & _).
    vm_compute in Hrun; discriminate.
  - intros present H.
    destruct (H _ eq_refl) as (article & link & Hrun & _).
    vm_compute in Hrun; discriminate.
Qed.

(** C2, as amended. For an item whose post is a non-empty object and whose
    creator is missing or an object, the title of the article is the value
    under the key [title] whatever it is (an empty string and [null]
    included), and "Untitled" only when the key is missing; the author is the
    value under [creator.name] whatever it is, and "Unknown Author" only when
    the creator or its key [name] is missing. *)
Theorem title_author_defaults (item post : list (string * json)) :
  dict_get item "post" = Some (JObj post) ->
  post <> [] ->
  (dict_get post "creator" = None \/
   exists creator, dict_get post "creator" = Some (JObj creator)) ->
  exists title author link,
    process_item (JObj item)
    = Ok (Some (JObj [("title", title); ("author", author); ("link", link)])) /\
    (forall v, dict_get post "title" = Some v -> title = v) /\
    (dict_get post "title" = None -> title = JStr "Untitled") /\
    (forall v, creator_field post "name" = Some v -> author = v) /\
    (creator_field post "name" = None -> author = JStr "Unknown Author").
Proof.
  intros Hpost Hne Hcreator.
  run_item Hpost Hne Hcreator.
  all: split; [intros v Hv; rewrite Hv; reflexivity|].
  all: split; [intros Hv; rewrite Hv; reflexivity|].
  all: split; [intros v Hv; rewrite Hv; reflexivity|].
  all: intros Hv; rewrite Hv; reflexivity.
Qed.

(** The defaults at a post with neither title nor name, and the title of a
    post that has one. *)
Lemma title_author_defaults_witness :
  (exists link,
     process_item (JObj item_untitled)
     = Ok (Some (JObj [("title", JStr "Untitled");
                       ("author", JStr "Unknown Author"); ("link", link)]))) /\
  (exists author link,
     process_item (JObj item_alice)
     = Ok (Some (JObj [("title", JStr "On proxies"); ("author", author);
                       ("link", link)]))).
Proof.
  split.
  - destruct (title_author_defaults item_untitled _ eq_refl)
      as (title & author & link & Hrun & _ & Htitle & _ & Hauthor).
    + discriminate.
    + right; eexists; reflexivity.
    + rewrite (Htitle eq_refl), (Hauthor eq_refl) in Hrun.
      exists link; exact Hrun.
  - destruct (title_author_defaults item_alice _ eq_refl)
      as (title & author & link & Hrun & Htitle & _).
    + discriminate.
    + right; eexists; reflexivity.
    + rewrite (Htitle _ eq_refl) in Hrun.
      exists author, link; exact Hrun.
Defined.

(** C2, as it is written, fails: an empty title and an empty name are kept
    as they are, a [null] title and a [null] name come out as [null], an
    empty post object is dropped, and a [null] creator makes the item raise. *)
Lemma title_author_claim_counterexample :
  ~ title_author_claim item_blank_title /\
  ~ title_author_claim item_null_title /\
  ~ title_author_claim item_empty_post /\
  ~ title_author_claim item_null_creator.
Proof.
  repeat split; intros H;
    destruct (H _ eq_refl) as (article & Hrun & Htitle & Hauthor);
    vm_compute in Hrun; try discriminate;
    injection Hrun as <-; vm_compute in Htitle; discriminate.
Qed.

(** What the code answers at the inputs of the two lemmas above. *)
Example kept_as_upstream_has_them :
  process_item (JObj item_blank_title)
  = Ok (Some (JObj [("title", JStr ""); ("author", JStr "");
                    ("link", JStr "https://medium.com/p/1a2b")])) /\
  process_item (JObj item_null_title)
  = Ok (Some (JObj [("title", JNull); ("author", JNull);
                    ("link", JStr "https://medium.com/p/1a2b")])) /\
  process_item (JObj item_blank_slug)
  = Ok (Some (JObj [("title", JStr "Untitled"); ("author", JStr "Unknown Author");
                    ("link", JStr "https://medium.com/p/f1")])) /\
  process_item (JObj item_blank_id)
  = Ok (Some (JObj [("title", JStr "Untitled"); ("author", JStr "Unknown Author");
                    ("link", JStr "https://medium.com/p/")])) /\
  process_item (JObj item_empty_post) = Ok None /\
  process_item (JObj item_null_creator) = Raise AttributeError.
Proof. repeat split. Qed.

(** C3, as amended. On a list of items of the data model the loop returns a
    list of articles. Whenever it returns one: an item without a post yields
    nothing and raises nothing; the articles are the outcomes of the items
    that yield one, in the order of the items; there are no more articles
    than items, and fewer when an item has no post; every link is non-empty,
    and is a non-empty string when [mediumUrl] is a string, [null] or
    missing. *)
Theorem normalizer_filters_in_order (items : list json) :
  (Forall upstream_item items ->
   exists articles, process_items items [] = Ok articles) /\
  (forall articles, process_items items [] = Ok articles ->
     (forall item, In item items -> lacks_post item ->
        process_item item = Ok None) /\
     List.length articles <= List.length items /\
     ((exists item, In item items /\ lacks_post item) ->
      List.length articles < List.length items) /\
     (exists outcomes,
        Forall2 (fun item outcome => process_item item = Ok outcome)
          items outcomes /\
        articles = emitted outcomes) /\
     Forall (fun article =>
               exists link,
                 get article "link" JNull = Ok link /\ truthy link = true)
       articles /\
     (Forall url_is_text items -> Forall link_is_text articles)).
Proof.
  split; [intros Hitems; now apply process_items_total|].
  intros articles Hrun.
  destruct (process_items_outcomes _ _ _ Hrun) as (outcomes & Hall & Harticles).
  simpl in Harticles; subst articles.
  pose proof (Forall2_length Hall) as Hlen.
  split; [intros item _; apply lacks_post_skipped|].
  split; [rewrite Hlen; apply emitted_length|].
  split.
  { intros (item & Hin & Hlacks).
    rewrite Hlen; apply emitted_length_skipped.
    apply lacks_post_skipped in Hlacks.
    clear Hrun Hlen; induction Hall as [|x o xs os Hx Hxs IH]; [contradiction|].
    destruct Hin as [->|Hin]; [left; congruence | right; auto]. }
  split; [exists outcomes; auto|].
  clear Hrun Hlen.
  induction Hall as [|item outcome items outcomes Hitem Hall IH]; simpl.
  - split; [constructor | intros _; constructor].
  - destruct IH as [IHlink IHtext].
    destruct outcome as [article|].
    + destruct (process_item_emits_inv _ _ Hitem)
        as (kvs & post & -> & Hpost & Hne & Hcreator).
      destruct (emitted_link _ _ Hpost Hne Hcreator)
        as (title & author & link & Heq & Htruthy & Htext).
      rewrite Hitem in Heq; injection Heq as ->.
      split.
      * constructor; [|exact IHlink].
        exists link; split; [reflexivity | exact Htruthy].
      * intros Htyped; inversion Htyped as [|? ? Hhead Htail]; subst.
        constructor; [|auto].
        destruct Htext as (s & -> & Hs).
        { intros v Hv; exact (Hhead kvs post v eq_refl Hpost Hv). }
        exists s; split; [reflexivity | exact Hs].
    + split; [exact IHlink|].
      intros Htyped; inversion Htyped; subst; auto.
Qed.

(** Two items, the second with [post: null]: one article comes out. *)
Lemma normalizer_filters_in_order_witness :
  exists articles,
    process_items [JObj item_alice; JObj item_without_post] [] = Ok articles /\
    List.length articles < 2 /\
    Forall link_is_text articles.
Proof.
  pose proof (normalizer_filters_in_order
                [JObj item_alice; JObj item_without_post]) as [Htotal Hfacts].
  destruct Htotal as [articles Hrun].
  { constructor; [|constructor; [|constructor]].
    - exists item_alice; split; [reflexivity|]; right.
      eexists; split; [reflexivity|]; split; [discriminate|].
      right; eexists; reflexivity.
    - exists item_without_post; split; [reflexivity|]; left; reflexivity. }
  destruct (Hfacts articles Hrun) as (_ & _ & Hfewer & _ & _ & Htext).
  exists articles; split; [exact Hrun|]; split.
  - apply Hfewer; exists (JObj item_without_post); split.
    + right; left; reflexivity.
    + exists item_without_post; split; [reflexivity | right; reflexivity].
  - apply Htext; constructor; [|constructor; [|constructor]].
    + intros fields0 post0 v Hitem Hpost Hurl.
      injection Hitem as <-; vm_compute in Hpost; injection Hpost as <-.
      vm_compute in Hurl; discriminate.
    + intros fields0 post0 v Hitem Hpost.
      injection Hitem as <-; vm_compute in Hpost; discriminate.
Defined.

(** C3, as it is written, fails: a [mediumUrl] that is the number 5 is
    emitted as the link, which is then no string. *)
Lemma link_text_claim_counterexample :
  ~ link_text_claim [JObj item_numeric_url].
Proof.
  intros H.
  specialize (H _ eq_refl).
  inversion H as [|article rest (link & Hlink & _) _]; subst.
  vm_compute in Hlink; discriminate.
Qed.

(** ** The handler *)

Lemma raise_for_status_ok r : ~ http_error r -> raise_for_status r = Ok tt.
Proof.
  unfold http_error, raise_for_status; intros H.
  destruct (400 <=? status_code r)%Z eqn:E1, (status_code r <? 500)%Z eqn:E2,
    (500 <=? status_code r)%Z eqn:E3, (status_code r <? 600)%Z eqn:E4;
    cbn [andb]; try reflexivity; exfalso; lia.
Qed.

Lemma raise_for_status_error r :
  http_error r -> exists msg, raise_for_status r = Raise (HTTPError msg (Some r)).
Proof.
  unfold http_error, raise_for_status; intros H.
  destruct (400 <=? status_code r)%Z eqn:E1, (status_code r <? 500)%Z eqn:E2,
    (500 <=? status_code r)%Z eqn:E3, (status_code r <? 600)%Z eqn:E4;
    cbn [andb]; eauto; exfalso; lia.
Qed.

Lemma ok_response_succeeds body : ~ http_error (ok_response body).
Proof. unfold http_error; simpl; lia. Qed.


Section HandlerFacts.

Variable json_loads : string -> result json.
Variable MEDIUM_API_KEY : option string.

(** After the call the handler goes through the [try] block and the
    [except] clauses. *)
Lemma handler_call client req k :
  get_tag_feed_handler json_loads MEDIUM_API_KEY client = Call req k ->
  k = fun posted => except_clauses (try_block json_loads posted).
Proof.
  unfold get_tag_feed_handler.
  destruct (api_key_missing MEDIUM_API_KEY); [discriminate|].
  destruct client as [client_data|e]; [|discriminate].
  destruct (truthy client_data); cbn [negb]; [|discriminate].
  destruct (get client_data "tagSlug" JNull) as [tag_slug|e]; [|discriminate].
  destruct (get client_data "mode" JNull) as [mode|e]; [|discriminate].
  destruct (truthy tag_slug); cbn [negb]; [|discriminate].
  destruct (truthy mode); cbn [negb]; [|discriminate].
  destruct (in_valid_modes _); cbn [negb]; [|discriminate].
  intros [= _ <-]; reflexivity.
Qed.

Lemma try_block_decoded r data :
  ~ http_error r ->
  json_loads (clean_medium_response (text r)) = Ok data ->
  try_block json_loads (Ok r) = interpret_payload data.
Proof.
  intros Hstatus Hdata; unfold try_block; cbn [bind].
  rewrite (raise_for_status_ok _ Hstatus); cbn [bind].
  now rewrite Hdata.
Qed.

End HandlerFacts.

Lemma has_graphql_errors_object payload :
  has_graphql_errors (JObj payload) = Ok (filled (dict_get payload "errors")).
Proof.
  unfold has_graphql_errors; cbn [contains getitem bind].
  destruct (dict_get payload "errors"); reflexivity.
Qed.

Lemma interpret_payload_clean payload :
  filled (dict_get payload "errors") = false ->
  interpret_payload (JObj payload) = normalize (JObj payload).
Proof.
  intros H; unfold interpret_payload.
  rewrite has_graphql_errors_object, H; reflexivity.
Qed.


Lemma normalize_items payload data feed items :
  dict_get payload "data" = Some (JObj data) ->
  dict_get data "tagFeed" = Some (JObj feed) ->
  dict_get feed "items" = Some (JArr items) ->
  normalize (JObj payload)
  = bind (process_items items [])
      (fun articles => Ok (JObj [("articles", JArr articles)], 200%Z)).
Proof.
  intros H1 H2 H3; unfold normalize; cbn [get bind].
  rewrite H1; cbn [get bind]. rewrite H2; cbn [get bind]. rewrite H3.
  reflexivity.
Qed.

Lemma normalize_broken payload :
  path_broken payload = true ->
  normalize (JObj payload) = Ok (JObj [("articles", JArr [])], 200%Z).
Proof.
  unfold path_broken, normalize; cbn [get bind].
  destruct (dict_get payload "data") as [[| | | | |data]|]; try discriminate;
    cbn [get bind].
  - destruct (dict_get data "tagFeed") as [[| | | | |feed]|]; try discriminate;
      cbn [get bind].
    + destruct (dict_get feed "items"); [discriminate | reflexivity].
    + reflexivity.
  - reflexivity.
Qed.

Lemma rstrip_head c rest :
  isspace c = false -> exists rest', rstrip (String c rest) = String c rest'.
Proof.
  intros Hc; simpl; rewrite Hc.
  destruct (rstrip rest); eauto.
Qed.

Lemma head_not_a_mode c rest :
  starts_no_mode c = true ->
  in_valid_modes (upper (strip (String c rest))) = false.
Proof.
  unfold starts_no_mode; intros H.
  repeat (apply andb_prop in H; destruct H as [H ?]).
  apply negb_true_iff in H.
  unfold strip; simpl lstrip; rewrite H.
  destruct (rstrip_head c rest H) as [rest' ->].
  unfold in_valid_modes, valid_modes; simpl.
  repeat match goal with
    | Hc : negb (Ascii.eqb ?x ?y) = true |- _ => apply negb_true_iff in Hc; rewrite Hc
    end.
  reflexivity.
Qed.

Lemma uint_head d :
  exists c rest, NilZero.string_of_uint d = String c rest /\ starts_no_mode c = true.
Proof.
  destruct d; simpl; eexists _, _; split; reflexivity.
Qed.

Lemma str_of_Z_head z :
  exists c rest, str_of_Z z = String c rest /\ starts_no_mode c = true.
Proof.
  unfold str_of_Z, NilZero.string_of_int.
  destruct (Z.to_int z) as [d|d].
  - apply uint_head.
  - eexists _, _; split; reflexivity.
Qed.

Lemma str_not_a_mode v :
  (forall s, v <> JStr s) -> in_valid_modes (upper (strip (str v))) = false.
Proof.
  intros Hv; destruct v as [|[]|z|s|l|kvs]; try reflexivity.
  - simpl str; destruct (str_of_Z_head z) as (c & rest & -> & Hc).
    now apply head_not_a_mode.
  - now destruct (Hv s).
  - simpl str; now apply head_not_a_mode.
  - simpl str; now apply head_not_a_mode.
Qed.




(** C6. The code does not meet it: when upstream answers a 4xx or 5xx and
    the call [e.response.json()] of line 196 raises something else than
    [JSONDecodeError] (a [RecursionError] on a body nested too deep, a
    [ValueError] on a number of too many digits), the exception is raised
    inside the first [except] clause, which no clause catches: it leaves the
    handler, and there is neither the status of upstream nor a body with an
    error. *)
Theorem http_error_decoding_escapes json_loads key client req k r e :
  get_tag_feed_handler json_loads key client = Call req k ->
  http_error r ->
  json_raises r = Some e ->
  (forall msg, e <> JSONDecodeError msg) ->
  k (Ok r) = Raise e.
Proof.
  intros Hcall Hstatus Hjson Hother.
  rewrite (handler_call _ _ _ _ _ Hcall).
  destruct (raise_for_status_error _ Hstatus) as [msg Hraise].
  unfold try_block; cbn [bind]; rewrite Hraise; cbn [bind except_clauses].
  rewrite Hjson.
  destruct e; try reflexivity.
  now destruct (Hother msg0).
Qed.

(** A 403 whose body is nested too deep. *)
Lemma http_error_decoding_escapes_witness :
  fst (serve (decode_fails "") secret (fun _ => Ok forbidden_too_deep)
         (Ok rust_hot))
  = Raise RecursionError.
Proof.
  apply (http_error_decoding_escapes (decode_fails "") secret (Ok rust_hot) _ _
           forbidden_too_deep RecursionError eq_refl).
  - unfold http_error; simpl; lia.
  - reflexivity.
  - discriminate.
Defined.

(** X16. Once the call is made: a timeout gives 504, another failure of the
    network 503, a body that [json.loads] rejects after cleaning 502, and a
    4xx or 5xx status of upstream comes back as it is when the call
    [e.response.json()] of line 196 returns or raises [JSONDecodeError];
    every one of these answers has an error and its details. *)
Theorem upstream_failures_mapped json_loads key client req k :
  get_tag_feed_handler json_loads key client = Call req k ->
  (exists body, k (Raise Timeout) = Ok (body, 504%Z) /\ structured_error body) /\
  (forall msg, exists body,
     k (Raise (RequestException msg)) = Ok (body, 503%Z) /\
     structured_error body) /\
  (forall r msg, ~ http_error r ->
     json_loads (clean_medium_response (text r)) = Raise (JSONDecodeError msg) ->
     exists body, k (Ok r) = Ok (body, 502%Z) /\ structured_error body) /\
  (forall r, http_error r -> json_quiet r ->
     exists body, k (Ok r) = Ok (body, status_code r) /\ structured_error body).
Proof.
  intros Hcall; rewrite (handler_call _ _ _ _ _ Hcall).
  split; [|split; [|split]].
  - eexists; split; [reflexivity | do 2 eexists; reflexivity].
  - intros msg; eexists; split; [reflexivity | do 2 eexists; reflexivity].
  - intros r msg Hstatus Hfail.
    unfold try_block; cbn [bind].
    rewrite (raise_for_status_ok _ Hstatus); cbn [bind]; rewrite Hfail.
    eexists; split; [reflexivity | do 2 eexists; reflexivity].
  - intros r Hstatus Hquiet.
    destruct (raise_for_status_error _ Hstatus) as [msg Hraise].
    unfold try_block; cbn [bind]; rewrite Hraise; cbn [bind except_clauses].
    unfold json_quiet in Hquiet.
    destruct (json_raises r) as [[]|]; try contradiction;
      (eexists; split; [reflexivity | do 2 eexists; reflexivity]).
Qed.

(** A timeout, a refused connection, a 403 and a body that is not JSON. *)
Lemma upstream_failures_mapped_witness :
  let served upstream :=
    fst (serve (decode_fails "Expecting value: line 1 column 1 (char 0)")
           secret upstream (Ok rust_hot)) in
  (exists body, served (fun _ => Raise Timeout) = Ok (body, 504%Z)) /\
  (exists body,
     served (fun _ => Raise (RequestException "Connection refused"))
     = Ok (body, 503%Z)) /\
  (exists body, served (fun _ => Ok forbidden) = Ok (body, 403%Z)) /\
  (exists body, served (fun _ => Ok (ok_response "<html>")) = Ok (body, 502%Z)).
Proof.
  destruct (upstream_failures_mapped
              (decode_fails "Expecting value: line 1 column 1 (char 0)")
              secret (Ok rust_hot) _ _ eq_refl) as (H504 & H503 & H502 & Hpass).
  cbv zeta; split; [|split; [|split]].
  - destruct H504 as (body & Heq & _); exists body; exact Heq.
  - destruct (H503 "Connection refused") as (body & Heq & _).
    exists body; exact Heq.
  - destruct (Hpass forbidden) as (body & Heq & _);
      [unfold http_error; simpl; lia | exact I |].
    exists body; exact Heq.
  - destruct (H502 (ok_response "<html>") _ (ok_response_succeeds _) eq_refl)
      as (body & Heq & _).
    exists body; exact Heq.
Defined.

(** The fallback to 503 of line 201 is never taken: an [HTTPError] that
    carries no response makes line 194 raise before. *)
Remark http_error_without_response msg :
  except_clauses (Raise (HTTPError msg None)) = Raise AttributeError.
Proof. reflexivity. Qed.



(** C8, as amended. When the decoded payload is an object without a
    non-empty [errors], and the key [data] is missing, or [data] is an
    object without the key [tagFeed], or [tagFeed] is an object without the
    key [items], the answer is a 200 with an empty list of articles. *)
Theorem broken_path_gives_empty_feed json_loads key client req k r payload :
  get_tag_feed_handler json_loads key client = Call req k ->
  ~ http_error r ->
  json_loads (clean_medium_response (text r)) = Ok (JObj payload) ->
  filled (dict_get payload "errors") = false ->
  path_broken payload = true ->
  k (Ok r) = Ok (JObj [("articles", JArr [])], 200%Z).
Proof.
  intros Hcall Hstatus Hdata Herrors Hpath.
  rewrite (handler_call _ _ _ _ _ Hcall).
  rewrite (try_block_decoded _ _ _ Hstatus Hdata).
  rewrite (interpret_payload_clean _ Herrors), (normalize_broken _ Hpath).
  reflexivity.
Qed.

(** A payload whose [data] has no [tagFeed]. *)
Lemma broken_path_gives_empty_feed_witness :
  fst (serve (decode_as (JObj [("data", JObj [])])) secret
         (fun _ => Ok (ok_response "")) (Ok rust_hot))
  = Ok (JObj [("articles", JArr [])], 200%Z).
Proof.
  exact (broken_path_gives_empty_feed (decode_as (JObj [("data", JObj [])]))
           secret (Ok rust_hot) _ _ (ok_response "") [("data", JObj [])]
           eq_refl (ok_response_succeeds _) eq_refl eq_refl eq_refl).
Defined.

(** C8, as it is written, fails: a payload that has errors and no [data]
    has a segment of the path missing, and the answer is the 400 of the
    GraphQL errors. *)
Lemma empty_feed_claim_counterexample : ~ empty_feed_claim payload_errors_only.
Proof.
  intros H.
  specialize (H eq_refl (decode_as (JObj payload_errors_only)) secret
                (Ok rust_hot) _ _ (ok_response "") eq_refl
                (ok_response_succeeds _) eq_refl).
  vm_compute in H; discriminate.
Qed.

(** A segment that is there and holds [null] is not defaulted: the [get] on
    it raises, and the answer is the 500 of the last [except] clause. *)
Example null_segment_fails_request :
  fst (serve (decode_as (JObj payload_null_feed)) secret
         (fun _ => Ok (ok_response "")) (Ok rust_hot))
  = Ok (error_details "An unexpected internal server error occurred."
          (JStr "Please check server logs."), 500%Z).
Proof. reflexivity. Qed.

(** C10. When an item of the feed has a post whose creator is [null], the
    item raises instead of yielding an article with the placeholder author,
    and the answer to the whole request is the 500 of the last [except]
    clause, without any article. *)
Theorem null_creator_fails_request json_loads key client req k r
  payload data feed items item post :
  get_tag_feed_handler json_loads key client = Call req k ->
  ~ http_error r ->
  json_loads (clean_medium_response (text r)) = Ok (JObj payload) ->
  filled (dict_get payload "errors") = false ->
  dict_get payload "data" = Some (JObj data) ->
  dict_get data "tagFeed" = Some (JObj feed) ->
  dict_get feed "items" = Some (JArr items) ->
  In (JObj item) items ->
  dict_get item "post" = Some (JObj post) ->
  dict_get post "creator" = Some JNull ->
  process_item (JObj item) = Raise AttributeError /\
  k (Ok r)
  = Ok (error_details "An unexpected internal server error occurred."
          (JStr "Please check server logs."), 500%Z).
Proof.
  intros Hcall Hstatus Hdata Herrors Hpath1 Hpath2 Hpath3 Hin Hpost Hcreator.
  pose proof (process_item_null_creator _ _ Hpost Hcreator) as Hitem.
  split; [exact Hitem|].
  rewrite (handler_call _ _ _ _ _ Hcall).
  rewrite (try_block_decoded _ _ _ Hstatus Hdata).
  rewrite (interpret_payload_clean _ Herrors).
  rewrite (normalize_items _ _ _ _ Hpath1 Hpath2 Hpath3).
  rewrite (process_items_poisoned _ _ Hin Hitem); reflexivity.
Qed.

(** A feed of two items, the second with [creator: null]: the first article
    is lost with the request. *)
Lemma null_creator_fails_request_witness :
  exists item,
    In (JObj item) [JObj item_alice; JObj item_null_creator] /\
    process_item (JObj item) = Raise AttributeError /\
    fst (serve (decode_as (JObj (feed_of [JObj item_alice; JObj item_null_creator])))
           secret (fun _ => Ok (ok_response "")) (Ok rust_hot))
    = Ok (error_details "An unexpected internal server error occurred."
            (JStr "Please check server logs."), 500%Z).
Proof.
  exists item_null_creator.
  split; [right; left; reflexivity|].
  exact (null_creator_fails_request
           (decode_as (JObj (feed_of [JObj item_alice; JObj item_null_creator])))
           secret (Ok rust_hot) _ _ (ok_response "")
           (feed_of [JObj item_alice; JObj item_null_creator]) _ _ _
           item_null_creator _
           eq_refl (ok_response_succeeds _) eq_refl eq_refl eq_refl eq_refl
           eq_refl (or_intror (or_introl eq_refl)) eq_refl eq_refl).
Defined.

(** ** Further properties of the cleaning *)

Lemma string_app_inv_head (p a b : string) : p ++ a = p ++ b -> a = b.
Proof.
  induction p as [|c p IH]; simpl; [auto|].
  intros [= H]; auto.
Qed.

Lemma not_prefixed_by_itself (p t : string) : p <> "" -> t <> p ++ t.
Proof.
  intros Hp H; apply (f_equal String.length) in H.
  rewrite length_app in H.
  destruct p; [congruence | simpl in H; lia].
Qed.

(** X13. Cleaning takes nothing off the body, or takes the sixteen
    characters of the prefix off its front: the result is a suffix of the
    body and is never longer than it. *)
Theorem clean_medium_response_suffix (body : string) :
  (clean_medium_response body = body \/
   body = "])}while(1);</x>" ++ clean_medium_response body) /\
  (String.length (clean_medium_response body) = String.length body \/
   String.length (clean_medium_response body) + 16 = String.length body) /\
  String.length (clean_medium_response body) <= String.length body.
Proof.
  assert (H : clean_medium_response body = body \/
              body = prefix_to_remove ++ clean_medium_response body).
  { unfold clean_medium_response.
    destruct (String.prefix prefix_to_remove body) eqn:E; [right | left; reflexivity].
    destruct (prefix_split _ _ E) as [t ->].
    now rewrite drop_app. }
  split; [exact H|].
  assert (Hlen : String.length (clean_medium_response body) = String.length body \/
                 String.length (clean_medium_response body) + 16
                 = String.length body).
  { destruct H as [-> | H]; [left; reflexivity | right].
    rewrite H at 2; rewrite length_app; simpl; lia. }
  split; [exact Hlen | lia].
Qed.

(** X14. Cleaning twice is cleaning once exactly on the bodies that do not
    begin with the prefix twice. *)
Theorem clean_medium_response_idempotent_iff (body : string) :
  clean_medium_response (clean_medium_response body) = clean_medium_response body
  <-> ~ exists t, body = "])}while(1);</x>" ++ "])}while(1);</x>" ++ t.
Proof.
  fold prefix_to_remove.
  destruct (String.prefix prefix_to_remove body) eqn:E.
  - destruct (prefix_split _ _ E) as [t ->]; rewrite clean_strips.
    destruct (String.prefix prefix_to_remove t) eqn:Et.
    + destruct (prefix_split _ _ Et) as [u ->]; rewrite clean_strips.
      split.
      * intros H; exfalso.
        apply (not_prefixed_by_itself prefix_to_remove u); [discriminate | auto].
      * intros H; exfalso; apply H; exists u; reflexivity.
    + split.
      * intros _ [u Hu]; apply string_app_inv_head in Hu; subst t.
        rewrite prefix_app in Et; discriminate.
      * intros _; unfold clean_medium_response; now rewrite Et.
  - assert (Hsame : clean_medium_response body = body)
      by (unfold clean_medium_response; now rewrite E).
    rewrite !Hsame; split; [|reflexivity].
    intros _ [t ->]; rewrite prefix_app in E; discriminate.
Qed.

(** ** Further properties of the loop *)

Lemma bind_raise {A B} (r : result A) (k : A -> result B) e :
  bind r k = Raise e -> r = Raise e \/ exists a, r = Ok a /\ k a = Raise e.
Proof. destruct r; simpl; [eauto | intros [= <-]; auto]. Qed.

Lemma process_item_skips_inv item :
  process_item item = Ok None ->
  exists kvs, item = JObj kvs /\ filled (dict_get kvs "post") = false.
Proof.
  intros H.
  assert (Hobj : exists kvs, item = JObj kvs).
  { unfold process_item in H; apply bind_ok in H.
    destruct H as (post_data & Hpost & _).
    destruct (get_ok _ _ _ _ Hpost) as (kvs & -> & _); eauto. }
  destruct Hobj as (kvs & ->); exists kvs; split; [reflexivity|].
  destruct (filled (dict_get kvs "post")) eqn:Hfilled; [|reflexivity].
  exfalso; revert H; unfold process_item.
  change (get (JObj kvs) "post" JNull) with (Ok (or_null (dict_get kvs "post"))).
  cbn [bind]; rewrite truthy_or_null, Hfilled; cbn [negb].
  destruct (get (or_null (dict_get kvs "post")) "title" (JStr "Untitled"))
    as [title|e] eqn:Htitle; cbn [get bind]; [|discriminate].
  destruct (get_ok _ _ _ _ Htitle) as (post & -> & _).
  destruct (get (JObj post) "creator" (JObj [])) as [creator|e] eqn:Hcreator;
    cbn [bind]; [|discriminate].
  destruct (get creator "name" (JStr "Unknown Author")) as [name|e] eqn:Hname;
    cbn [bind]; [|discriminate].
  destruct (get_ok _ _ _ _ Hname) as (c & -> & _).
  cbn [get bind]; decide_tests; discriminate.
Qed.

Lemma process_item_accepts item :
  (exists outcome, process_item item = Ok outcome) <-> upstream_item item.
Proof.
  split; [|apply process_item_total].
  intros [[article|] H].
  - destruct (process_item_emits_inv _ _ H) as (kvs & post & -> & Hpost & Hrest).
    exists kvs; split; [reflexivity | right; eauto].
  - destruct (process_item_skips_inv _ H) as (kvs & -> & Hskip).
    exists kvs; split; [reflexivity | left; exact Hskip].
Qed.

Lemma process_items_raises items :
  forall processed e, process_items items processed = Raise e -> e = AttributeError.
Proof.
  induction items as [|item rest IH]; intros processed e H; simpl in H.
  - discriminate.
  - destruct (process_item item) as [outcome|e0] eqn:Hitem; cbn [bind] in H.
    + exact (IH _ _ H).
    + injection H as <-. exact (process_item_raises _ _ Hitem).
Qed.

Lemma outcomes_accepted items outcomes :
  Forall2 (fun item outcome => process_item item = Ok outcome) items outcomes ->
  Forall upstream_item items.
Proof.
  induction 1 as [|item outcome items outcomes Hitem _ IH]; constructor; auto.
  apply process_item_accepts; eauto.
Qed.

(** X10. The loop returns a list of articles exactly on the lists whose
    items are all of the data model (an object whose post is missing, empty
    or a non-empty object with a creator that is missing or an object); on
    every other list it raises [AttributeError]. *)
Theorem loop_accepts_upstream_items (items : list json) :
  ((exists articles, process_items items [] = Ok articles)
   <-> Forall upstream_item items) /\
  (~ Forall upstream_item items ->
   process_items items [] = Raise AttributeError).
Proof.
  assert (Hok : forall articles, process_items items [] = Ok articles ->
                                 Forall upstream_item items).
  { intros articles H.
    destruct (process_items_outcomes _ _ _ H) as (outcomes & Hall & _).
    exact (outcomes_accepted _ _ Hall). }
  split; [split|].
  - intros [articles H]; eauto.
  - intros H; now apply process_items_total.
  - intros Hnot.
    destruct (process_items items []) as [articles|e] eqn:H.
    + destruct Hnot; eauto.
    + now rewrite (process_items_raises _ _ _ H).
Qed.

(** A list whose second item is [null]. *)
Lemma loop_accepts_upstream_items_witness :
  process_items [JObj item_alice; JNull] [] = Raise AttributeError.
Proof.
  apply (loop_accepts_upstream_items [JObj item_alice; JNull]).
  intros H; inversion H as [|? ? _ Htail]; subst.
  inversion Htail as [|? ? Hnull _]; subst.
  destruct Hnull as (kvs & Hkvs & _); discriminate.
Defined.

Lemma process_items_from items :
  forall processed,
    process_items items processed
    = bind (process_items items []) (fun articles => Ok (processed ++ articles)%list).
Proof.
  induction items as [|item rest IH]; intros processed; simpl.
  - now rewrite app_nil_r.
  - destruct (process_item item) as [[article|]|e]; cbn [bind]; [| |reflexivity].
    + rewrite (IH (processed ++ [article])%list), (IH [article]).
      destruct (process_items rest []); cbn [bind]; [|reflexivity].
      now rewrite <- app_assoc.
    + rewrite (IH processed), (IH []).
      destruct (process_items rest []); reflexivity.
Qed.

Lemma process_items_chain l1 l2 :
  forall processed,
    process_items (l1 ++ l2) processed
    = bind (process_items l1 processed) (process_items l2).
Proof.
  induction l1 as [|item rest IH]; intros processed; simpl; [reflexivity|].
  destruct (process_item item) as [outcome|e]; cbn [bind]; [apply IH | reflexivity].
Qed.

(** X12. The loop on two lists put one after the other is the loop on the
    first, then the loop on the second, the articles of the second coming
    after those of the first; it raises as soon as one of the two does. *)
Theorem process_items_app (l1 l2 : list json) :
  process_items (l1 ++ l2) []
  = bind (process_items l1 [])
      (fun first => bind (process_items l2 [])
                      (fun second => Ok (first ++ second)%list)).
Proof.
  rewrite process_items_chain.
  destruct (process_items l1 []) as [first|e]; cbn [bind]; [|reflexivity].
  apply process_items_from.
Qed.

Lemma emitted_count items outcomes :
  Forall2 (fun item outcome => process_item item = Ok outcome) items outcomes ->
  List.length (emitted outcomes) = List.length (filter has_post items).
Proof.
  induction 1 as [|item outcome items outcomes Hitem _ IH]; [reflexivity|].
  destruct outcome as [article|]; simpl.
  - destruct (process_item_emits_inv _ _ Hitem) as (kvs & post & -> & Hpost & Hne & _).
    simpl; rewrite Hpost; simpl.
    destruct post; [now destruct Hne | simpl; now rewrite IH].
  - destruct (process_item_skips_inv _ Hitem) as (kvs & -> & Hskip).
    simpl; rewrite Hskip; exact IH.
Qed.

Lemma emitted_articles items outcomes :
  Forall2 (fun item outcome => process_item item = Ok outcome) items outcomes ->
  Forall is_article (emitted outcomes).
Proof.
  induction 1 as [|item outcome items outcomes Hitem _ IH]; [constructor|].
  destruct outcome as [article|]; simpl; [|exact IH].
  constructor; [|exact IH].
  destruct (process_item_emits_inv _ _ Hitem)
    as (kvs & post & -> & Hpost & Hne & Hcreator).
  destruct (emitted_link _ _ Hpost Hne Hcreator)
    as (title & author & link & Heq & _).
  rewrite Hitem in Heq; injection Heq as ->.
  exists title, author, link; reflexivity.
Qed.

(** ** Further properties of the validation *)

Lemma isspace_upper c : isspace (upper_char c) = isspace c.
Proof. destruct c as [[] [] [] [] [] [] [] []]; reflexivity. Qed.

Lemma upper_char_twice c : upper_char (upper_char c) = upper_char c.
Proof. destruct c as [[] [] [] [] [] [] [] []]; reflexivity. Qed.

Lemma upper_twice s : upper (upper s) = upper s.
Proof.
  induction s as [|c s IH]; simpl; [reflexivity|].
  now rewrite upper_char_twice, IH.
Qed.

Lemma lstrip_upper s : lstrip (upper s) = upper (lstrip s).
Proof.
  induction s as [|c s IH]; simpl; [reflexivity|].
  rewrite isspace_upper; destruct (isspace c); [exact IH | reflexivity].
Qed.

Lemma rstrip_upper s : rstrip (upper s) = upper (rstrip s).
Proof.
  induction s as [|c s IH]; simpl; [reflexivity|].
  rewrite IH, isspace_upper.
  destruct (rstrip s); simpl; [destruct (isspace c)|]; reflexivity.
Qed.

Lemma strip_upper s : strip (upper s) = upper (strip s).
Proof. unfold strip; now rewrite lstrip_upper, rstrip_upper. Qed.

Lemma lstrip_spaces a s : all_space a = true -> lstrip (a ++ s) = lstrip s.
Proof.
  induction a as [|c a IH]; simpl; [reflexivity|].
  intros H; apply andb_prop in H; destruct H as [-> H]; auto.
Qed.

Lemma rstrip_all_space b : all_space b = true -> rstrip b = "".
Proof.
  induction b as [|c b IH]; simpl; [reflexivity|].
  intros H; apply andb_prop in H; destruct H as [-> H].
  now rewrite (IH H).
Qed.

Lemma rstrip_spaces s b : all_space b = true -> rstrip (s ++ b) = rstrip s.
Proof.
  intros Hb; induction s as [|c s IH]; simpl.
  - now apply rstrip_all_space.
  - now rewrite IH.
Qed.

Lemma lstrip_keeps_padding s b :
  lstrip (s ++ b) = lstrip s ++ b \/ (lstrip s = "" /\ lstrip (s ++ b) = lstrip b).
Proof.
  induction s as [|c s IH]; simpl.
  - right; split; reflexivity.
  - destruct (isspace c); [exact IH | left; reflexivity].
Qed.

Lemma lstrip_all_space b : all_space b = true -> lstrip b = "".
Proof.
  induction b as [|c b IH]; simpl; [reflexivity|].
  intros H; apply andb_prop in H; destruct H as [-> H]; auto.
Qed.

Lemma strip_padding a s b :
  all_space a = true -> all_space b = true -> strip (a ++ s ++ b) = strip s.
Proof.
  intros Ha Hb; unfold strip.
  rewrite (lstrip_spaces _ _ Ha).
  destruct (lstrip_keeps_padding s b) as [-> | [H1 ->]].
  - now apply rstrip_spaces.
  - rewrite H1, (lstrip_all_space _ Hb); reflexivity.
Qed.

Lemma truthy_padded a s b : s <> "" -> truthy (JStr (a ++ s ++ b)) = true.
Proof.
  intros Hs; destruct a; simpl; [|reflexivity].
  destruct s; [congruence | reflexivity].
Qed.

Lemma truthy_upper s : s <> "" -> truthy (JStr (upper s)) = true.
Proof. destruct s; [congruence | reflexivity]. Qed.

Lemma truthy_nonempty s : s <> "" -> truthy (JStr s) = true.
Proof. destruct s; [congruence | reflexivity]. Qed.

Lemma handler_depends_on_normal_mode json_loads key tag m1 m2 :
  m1 <> "" -> m2 <> "" -> upper (strip m1) = upper (strip m2) ->
  get_tag_feed_handler json_loads key (Ok (request_body tag (JStr m1)))
  = get_tag_feed_handler json_loads key (Ok (request_body tag (JStr m2))).
Proof.
  intros H1 H2 Heq.
  unfold get_tag_feed_handler, request_body.
  destruct (api_key_missing key); [reflexivity|].
  change (truthy (JObj [("tagSlug", tag); ("mode", JStr m1)])) with true.
  change (truthy (JObj [("tagSlug", tag); ("mode", JStr m2)])) with true.
  cbn [negb].
  change (get (JObj [("tagSlug", tag); ("mode", JStr m1)]) "tagSlug" JNull)
    with (Ok tag).
  change (get (JObj [("tagSlug", tag); ("mode", JStr m2)]) "tagSlug" JNull)
    with (Ok tag).
  change (get (JObj [("tagSlug", tag); ("mode", JStr m1)]) "mode" JNull)
    with (Ok (JStr m1)).
  change (get (JObj [("tagSlug", tag); ("mode", JStr m2)]) "mode" JNull)
    with (Ok (JStr m2)).
  cbv beta iota.
  rewrite (truthy_nonempty _ H1), (truthy_nonempty _ H2).
  cbn [str]; rewrite Heq; reflexivity.
Qed.

(** X4. The handler does not see the whitespace around a mode nor its case:
    for a mode that is a non-empty string, the run on the mode padded with
    whitespace, and the run on the mode uppercased, are the run on the mode
    itself (the same rejection, or the same call with the same request). *)
Theorem mode_padding_and_case json_loads key tag s a b :
  s <> "" -> all_space a = true -> all_space b = true ->
  get_tag_feed_handler json_loads key (Ok (request_body tag (JStr (a ++ s ++ b))))
  = get_tag_feed_handler json_loads key (Ok (request_body tag (JStr s))) /\
  get_tag_feed_handler json_loads key (Ok (request_body tag (JStr (upper s))))
  = get_tag_feed_handler json_loads key (Ok (request_body tag (JStr s))).
Proof.
  intros Hs Ha Hb; split; apply handler_depends_on_normal_mode; auto.
  - intros H; apply (f_equal (fun x => truthy (JStr x))) in H.
    rewrite truthy_padded in H by assumption; discriminate.
  - now rewrite strip_padding.
  - intros H; apply (f_equal (fun x => truthy (JStr x))) in H.
    rewrite truthy_upper in H by assumption; discriminate.
  - now rewrite strip_upper, upper_twice.
Qed.

(** The mode "top_week" between a tab and a newline. *)
Lemma mode_padding_and_case_witness :
  get_tag_feed_handler (decode_fails "") secret
    (Ok (request_body (JStr "rust")
           (JStr (String (ascii_of_nat 9) "" ++ "top_week"
                    ++ String (ascii_of_nat 10) ""))))
  = get_tag_feed_handler (decode_fails "") secret
      (Ok (request_body (JStr "rust") (JStr "top_week"))) /\
  get_tag_feed_handler (decode_fails "") secret
    (Ok (request_body (JStr "rust") (JStr (upper "top_week"))))
  = get_tag_feed_handler (decode_fails "") secret
      (Ok (request_body (JStr "rust") (JStr "top_week"))).
Proof.
  apply (mode_padding_and_case (decode_fails "") secret (JStr "rust") "top_week");
    [discriminate | reflexivity | reflexivity].
Defined.

Lemma in_valid_modes_true mode :
  in_valid_modes mode = true <->
  In mode ["HOT"; "NEW"; "TOP_ALL_TIME"; "TOP_MONTH"; "TOP_WEEK"; "TOP_YEAR"].
Proof.
  unfold in_valid_modes; rewrite existsb_exists; split.
  - intros (m & Hin & Heq); apply String.eqb_eq in Heq; now subst.
  - intros Hin; exists mode; split; [exact Hin | apply String.eqb_refl].
Qed.

Lemma filled_some o : filled o = true -> exists v, o = Some v /\ truthy v = true.
Proof. destruct o as [v|]; simpl; [eauto | discriminate]. Qed.

(** X1. When the API key is set and not empty and the body is an object
    whose [tagSlug] is non-empty and whose [mode], made a string, trimmed
    and uppercased, is one of the six valid modes, the handler calls
    upstream, with a request that is fully determined: the fixed query to
    the fixed endpoint, the five base headers and
    [Authorization: Bearer <key>], the client's [tagSlug] as it came, the
    mode in its uppercase form, a timeout of 25 seconds. And whenever the
    handler calls upstream, the key is set and not empty, the body is an
    object whose [tagSlug] is non-empty and whose [mode] is a non-empty
    string, and the request is of that form with one of the six valid
    modes, which is the mode trimmed and uppercased when the mode is
    ASCII. *)
Theorem upstream_call_conditions json_loads key client req :
  ((exists secret_key kvs tag_slug mode,
      key = Some secret_key /\ secret_key <> "" /\
      client = Ok (JObj kvs) /\
      dict_get kvs "tagSlug" = Some tag_slug /\ truthy tag_slug = true /\
      dict_get kvs "mode" = Some mode /\ truthy mode = true /\
      In (upper (strip (str mode)))
        ["HOT"; "NEW"; "TOP_ALL_TIME"; "TOP_MONTH"; "TOP_WEEK"; "TOP_YEAR"] /\
      req = mkRequest "https://medium.com/_/graphql"
              [ ("Content-Type", "application/json");
                ("Accept", "application/json");
                ("Origin", "https://medium.com");
                ("Referer", "https://medium.com/");
                ("User-Agent",
                 "PythonBackend/1.0 (MediumFeedFetcher; +https://yourdomain.com/info)");
                ("Authorization", "Bearer " ++ secret_key) ]
              (JObj [("query", JStr graphql_query);
                     ("variables",
                      JObj [("tagSlug", tag_slug);
                            ("mode", JStr (upper (strip (str mode))))])])
              25) ->
   exists k, get_tag_feed_handler json_loads key client = Call req k) /\
  ((exists k, get_tag_feed_handler json_loads key client = Call req k) ->
   exists secret_key kvs tag_slug mode sent,
     key = Some secret_key /\ secret_key <> "" /\
     client = Ok (JObj kvs) /\
     dict_get kvs "tagSlug" = Some tag_slug /\ truthy tag_slug = true /\
     dict_get kvs "mode" = Some (JStr mode) /\ mode <> "" /\
     In sent
       ["HOT"; "NEW"; "TOP_ALL_TIME"; "TOP_MONTH"; "TOP_WEEK"; "TOP_YEAR"] /\
     (ascii_text mode = true -> sent = upper (strip mode)) /\
     req = mkRequest "https://medium.com/_/graphql"
             [ ("Content-Type", "application/json");
               ("Accept", "application/json");
               ("Origin", "https://medium.com");
               ("Referer", "https://medium.com/");
               ("User-Agent",
                "PythonBackend/1.0 (MediumFeedFetcher; +https://yourdomain.com/info)");
               ("Authorization", "Bearer " ++ secret_key) ]
             (JObj [("query", JStr graphql_query);
                    ("variables",
                     JObj [("tagSlug", tag_slug); ("mode", JStr sent)])])
             25).
Proof.
  split.
  - intros (secret_key & kvs & tag_slug & mode & -> & Hkey & -> & Etag & Ttag
            & Emode & Tmode & Hvalid & ->).
    apply in_valid_modes_true in Hvalid.
    unfold get_tag_feed_handler, api_key_missing, api_key.
    destruct (String.eqb_spec secret_key "") as [|_]; [contradiction|].
    assert (Hbody : truthy (JObj kvs) = true)
      by (destruct kvs; [discriminate | reflexivity]).
    rewrite Hbody; cbn [negb get]; rewrite Etag, Emode, Ttag, Tmode; cbn [negb].
    rewrite Hvalid; cbn [negb].
    eexists; reflexivity.
  - intros [k H]; revert H; unfold get_tag_feed_handler, api_key_missing, api_key.
    destruct key as [secret_key|]; [|discriminate].
    destruct (String.eqb_spec secret_key "") as [|Hkey]; [discriminate|].
    destruct client as [client_data|e]; [|discriminate].
    destruct (truthy client_data); cbn [negb]; [|discriminate].
    destruct client_data as [| | | | |kvs]; try discriminate.
    cbn [get].
    fold (or_null (dict_get kvs "tagSlug")) (or_null (dict_get kvs "mode")).
    rewrite !truthy_or_null.
    destruct (filled (dict_get kvs "tagSlug")) eqn:Htag; cbn [negb]; [|discriminate].
    destruct (filled (dict_get kvs "mode")) eqn:Hmode; cbn [negb]; [|discriminate].
    destruct (filled_some _ Htag) as (tag_slug & Etag & Ttag).
    destruct (filled_some _ Hmode) as (mode & Emode & Tmode).
    rewrite Etag, Emode; cbn [or_null].
    destruct (in_valid_modes (upper (strip (str mode)))) eqn:Hvalid;
      cbn [negb]; [|discriminate].
    assert (Hstring : exists s, mode = JStr s).
    { destruct mode as [| | |s| |]; eauto;
        rewrite str_not_a_mode in Hvalid by discriminate; discriminate. }
    destruct Hstring as [s ->]; cbn [str] in *.
    intros [= <- _].
    exists secret_key, kvs, tag_slug, s, (upper (strip s)).
    repeat (split; [assumption || reflexivity|]).
    split; [now apply truthy_text|].
    split; [now apply in_valid_modes_true|].
    split; reflexivity.
Qed.

(** The request for the tag rust and the mode " hot ". *)
Lemma upstream_call_conditions_witness :
  exists k,
    get_tag_feed_handler (decode_fails "") secret
      (Ok (request_body (JStr "rust") (JStr " hot ")))
    = Call (mkRequest "https://medium.com/_/graphql"
              [ ("Content-Type", "application/json");
                ("Accept", "application/json");
                ("Origin", "https://medium.com");
                ("Referer", "https://medium.com/");
                ("User-Agent",
                 "PythonBackend/1.0 (MediumFeedFetcher; +https://yourdomain.com/info)");
                ("Authorization", "Bearer secret") ]
              (JObj [("query", JStr graphql_query);
                     ("variables",
                      JObj [("tagSlug", JStr "rust"); ("mode", JStr "HOT")])])
              25) k.
Proof.
  apply (proj1 (upstream_call_conditions (decode_fails "") secret _ _)).
  exists "secret", [("tagSlug", JStr "rust"); ("mode", JStr " hot ")],
    (JStr "rust"), (JStr " hot ").
  repeat (split; [reflexivity || discriminate|]).
  split; [left; reflexivity | reflexivity].
Defined.

(** X2. With the API key configured, a body that [get_json] fails on, and
    a body that decodes to an empty value ([null], [false], 0, an empty
    string, array or object), are answered 400 without any call upstream. *)
Theorem empty_body_rejected json_loads key upstream :
  api_key_missing key = false ->
  (forall e,
     serve json_loads key upstream (Raise e)
     = (Ok (error_body "Invalid JSON format in request body.", 400%Z), [])) /\
  (forall client_data, truthy client_data = false ->
     serve json_loads key upstream (Ok client_data)
     = (Ok (error_body
              "No JSON data provided in request body or invalid JSON format.",
            400%Z), [])).
Proof.
  intros Hkey; unfold serve, get_tag_feed_handler; rewrite Hkey.
  split; [reflexivity|].
  intros client_data ->; reflexivity.
Qed.

(** The body [[]]. *)
Lemma empty_body_rejected_witness :
  serve (decode_fails "") secret (fun _ => Raise Timeout) (Ok (JArr []))
  = (Ok (error_body
           "No JSON data provided in request body or invalid JSON format.",
         400%Z), []).
Proof.
  exact (proj2 (empty_body_rejected (decode_fails "") secret
                  (fun _ => Raise Timeout) eq_refl)
           (JArr []) eq_refl).
Defined.

(** X3. With the API key configured, a body that decodes to a non-empty
    value that is not an object (a non-empty array or string, a number other
    than 0, [true]) makes [client_data.get] raise [AttributeError] outside
    the [try] blocks: the exception leaves the handler, and no call goes
    upstream. *)
Theorem non_object_body_raises json_loads key upstream client_data :
  api_key_missing key = false ->
  truthy client_data = true ->
  (forall kvs, client_data <> JObj kvs) ->
  serve json_loads key upstream (Ok client_data) = (Raise AttributeError, []).
Proof.
  intros Hkey Htruthy Hshape; unfold serve, get_tag_feed_handler.
  rewrite Hkey, Htruthy; cbn [negb].
  destruct client_data as [| | | | |kvs]; try reflexivity.
  now destruct (Hshape kvs).
Qed.

(** The body [["rust", "hot"]]. *)
Lemma non_object_body_raises_witness :
  serve (decode_fails "") secret (fun _ => Raise Timeout)
    (Ok (JArr [JStr "rust"; JStr "hot"]))
  = (Raise AttributeError, []).
Proof.
  apply non_object_body_raises; [reflexivity | reflexivity | discriminate].
Defined.

(** X5. A mode that is not a JSON string (a number, [true], an array, an
    object) is never accepted: [str(mode)] begins with a digit, a sign, a
    bracket or a brace, or is "True", and the answer is the 400 that lists
    the valid modes, without any call upstream. *)
Theorem non_string_mode_rejected json_loads key upstream kvs mode :
  api_key_missing key = false ->
  filled (dict_get kvs "tagSlug") = true ->
  dict_get kvs "mode" = Some mode ->
  truthy mode = true ->
  (forall s, mode <> JStr s) ->
  serve json_loads key upstream (Ok (JObj kvs))
  = (Ok (error_body
           "Invalid mode. Must be one of: HOT, NEW, TOP_ALL_TIME, TOP_MONTH, TOP_WEEK, TOP_YEAR",
         400%Z), []).
Proof.
  intros Hkey Htag Hmode Htruthy Hshape.
  unfold serve, get_tag_feed_handler; rewrite Hkey.
  assert (Hbody : truthy (JObj kvs) = true)
    by (destruct kvs; [discriminate | reflexivity]).
  rewrite Hbody; cbn [negb get].
  fold (or_null (dict_get kvs "tagSlug")).
  rewrite truthy_or_null, Htag, Hmode, Htruthy; cbn [negb].
  rewrite (str_not_a_mode _ Hshape); reflexivity.
Qed.

(** The mode [["HOT"]]. *)
Lemma non_string_mode_rejected_witness :
  serve (decode_fails "") secret (fun _ => Raise Timeout)
    (Ok (request_body (JStr "rust") (JArr [JStr "HOT"])))
  = (Ok (error_body
           "Invalid mode. Must be one of: HOT, NEW, TOP_ALL_TIME, TOP_MONTH, TOP_WEEK, TOP_YEAR",
         400%Z), []).
Proof.
  apply (non_string_mode_rejected (decode_fails "") secret
           (fun _ => Raise Timeout)
           [("tagSlug", JStr "rust"); ("mode", JArr [JStr "HOT"])]
           (JArr [JStr "HOT"]));
    try reflexivity; discriminate.
Defined.

(** ** Further properties of the answers *)

Lemma http_error_dec r : {http_error r} + {~ http_error r}.
Proof.
  unfold http_error.
  destruct (Z_le_dec 400 (status_code r)), (Z_lt_dec (status_code r) 600);
    [left | right | right | right]; lia.
Qed.

Lemma normalize_path payload data feed items :
  dict_get payload "data" = Some (JObj data) ->
  dict_get data "tagFeed" = Some (JObj feed) ->
  dict_get feed "items" = Some items ->
  normalize (JObj payload)
  = bind (len items) (fun _ =>
      bind (iter items) (fun items =>
        bind (process_items items [])
          (fun articles => Ok (JObj [("articles", JArr articles)], 200%Z)))).
Proof.
  intros H1 H2 H3; unfold normalize; cbn [get bind].
  rewrite H1; cbn [get bind]. rewrite H2; cbn [get bind]. rewrite H3.
  reflexivity.
Qed.

Lemma normalize_ok data body status :
  normalize data = Ok (body, status) ->
  status = 200%Z /\
  exists articles, body = JObj [("articles", JArr articles)] /\
    Forall is_article articles.
Proof.
  unfold normalize; intros H.
  apply bind_ok in H; destruct H as (d & _ & H).
  apply bind_ok in H; destruct H as (feed & _ & H).
  apply bind_ok in H; destruct H as (items & _ & H).
  apply bind_ok in H; destruct H as (n & _ & H).
  apply bind_ok in H; destruct H as (its & _ & H).
  apply bind_ok in H; destruct H as (articles & Hrun & H).
  injection H as <- <-; split; [reflexivity|].
  exists articles; split; [reflexivity|].
  destruct (process_items_outcomes _ _ _ Hrun) as (outcomes & Hall & ->).
  exact (emitted_articles _ _ Hall).
Qed.

Lemma interpret_payload_ok data body status :
  interpret_payload data = Ok (body, status) ->
  (status = 400%Z /\ structured_error body) \/
  (status = 200%Z /\
   exists articles, body = JObj [("articles", JArr articles)] /\
     Forall is_article articles).
Proof.
  unfold interpret_payload; intros H.
  apply bind_ok in H; destruct H as ([|] & _ & H).
  - apply bind_ok in H; destruct H as (errors & _ & H).
    injection H as <- <-; left; split; [reflexivity | do 2 eexists; reflexivity].
  - right; exact (normalize_ok _ _ _ H).
Qed.

(** The exceptions of the handler's own code. *)
Lemma interpret_payload_raises data e :
  interpret_payload data = Raise e ->
  e = AttributeError \/ e = TypeError \/ e = KeyError.
Proof.
  assert (Hget : forall d key default e0,
             get d key default = Raise e0 -> e0 = AttributeError)
    by exact get_raises.
  assert (Hitem : forall d key e0, getitem d key = Raise e0 ->
                                   e0 = TypeError \/ e0 = KeyError).
  { intros d key e0; destruct d; simpl; try (intros [= <-]; auto).
    destruct (dict_get kvs key); [discriminate | intros [= <-]; auto]. }
  assert (Hin : forall key d e0, contains key d = Raise e0 -> e0 = TypeError)
    by (intros key d e0; destruct d; simpl; congruence).
  assert (Hlen : forall d e0, len d = Raise e0 -> e0 = TypeError)
    by (intros d e0; destruct d; simpl; congruence).
  assert (Hiter : forall d e0, iter d = Raise e0 -> e0 = TypeError)
    by (intros d e0; destruct d; simpl; congruence).
  unfold interpret_payload, has_graphql_errors, normalize; intros H.
  repeat match goal with
    | H : bind _ _ = Raise _ |- _ =>
        apply bind_raise in H; destruct H as [H | (? & _ & H)]
    | H : (if ?b then _ else _) = Raise _ |- _ => destruct b
    | H : get _ _ _ = Raise _ |- _ => apply Hget in H; auto
    | H : getitem _ _ = Raise _ |- _ => apply Hitem in H; tauto
    | H : contains _ _ = Raise _ |- _ => apply Hin in H; auto
    | H : len _ = Raise _ |- _ => apply Hlen in H; auto
    | H : iter _ = Raise _ |- _ => apply Hiter in H; auto
    | H : process_items _ _ = Raise _ |- _ => apply process_items_raises in H; auto
    | H : Ok _ = Raise _ |- _ => discriminate
    end.
Qed.

Lemma try_block_ok json_loads posted answer :
  try_block json_loads posted = Ok answer ->
  exists data, interpret_payload data = Ok answer.
Proof.
  unfold try_block; intros H.
  apply bind_ok in H; destruct H as (r & _ & H).
  apply bind_ok in H; destruct H as (u & _ & H).
  apply bind_ok in H; destruct H as (data & _ & H).
  eauto.
Qed.

(** X7. Whatever comes back from the call, an answer of the handler is
    either a 200 whose body is [{"articles": [...]}], every article being an
    object with exactly the keys title, author and link, or a body made of
    an error and its details. *)
Theorem answer_shape json_loads key client req k posted body status :
  get_tag_feed_handler json_loads key client = Call req k ->
  k posted = Ok (body, status) ->
  (status = 200%Z /\
   exists articles, body = JObj [("articles", JArr articles)] /\
     Forall is_article articles) \/
  structured_error body.
Proof.
  intros Hcall; rewrite (handler_call _ _ _ _ _ Hcall).
  destruct (try_block json_loads posted) as [answer|e] eqn:Htry; cbn [except_clauses].
  - intros [= ->].
    destruct (try_block_ok _ _ _ Htry) as (data & Hdata).
    destruct (interpret_payload_ok _ _ _ Hdata) as [[_ H] | H]; auto.
  - destruct e as [| | | | msg | msg [r|] | | msg | |];
      try (intros [= <- <-]; right; do 2 eexists; reflexivity);
      try discriminate.
    destruct (json_raises r) as [[]|];
      try (intros [= <- <-]; right; do 2 eexists; reflexivity);
      discriminate.
Qed.

(** X6. Once the call is made, and as long as [json.loads] raises none of
    the exceptions of [requests] and the call [e.response.json()] on a 4xx
    or 5xx response returns or raises [JSONDecodeError], the handler answers
    whatever [requests.post] comes back with (a response, a timeout, another
    failure of the request): no exception leaves it, and the status is one
    of 200, 400, 500, 502, 503, 504, or the 4xx or 5xx status of upstream. *)
Theorem answers_after_call json_loads key client req k posted :
  get_tag_feed_handler json_loads key client = Call req k ->
  (forall body e, json_loads body = Raise e -> from_requests e = false) ->
  post_outcome posted ->
  (forall r, posted = Ok r -> http_error r -> json_quiet r) ->
  exists body status,
    k posted = Ok (body, status) /\
    (In status [200; 400; 500; 502; 503; 504]%Z \/
     exists r, posted = Ok r /\ http_error r /\ status = status_code r).
Proof.
  intros Hcall Hloads Hposted Hquiet; rewrite (handler_call _ _ _ _ _ Hcall).
  destruct posted as [r|e].
  - destruct (http_error_dec r) as [Herr|Hfine].
    + destruct (raise_for_status_error _ Herr) as [msg Hraise].
      specialize (Hquiet r eq_refl Herr); unfold json_quiet in Hquiet.
      unfold try_block; cbn [bind]; rewrite Hraise; cbn [bind except_clauses].
      destruct (json_raises r) as [[]|]; try contradiction;
        (eexists _, _; split; [reflexivity|]; right; eauto).
    + unfold try_block; cbn [bind].
      rewrite (raise_for_status_ok _ Hfine); cbn [bind].
      destruct (json_loads (clean_medium_response (text r))) as [data|e] eqn:Hdata;
        cbn [bind].
      * destruct (interpret_payload data) as [[body status]|e] eqn:Hrun.
        -- exists body, status; split; [reflexivity|]; left.
           destruct (interpret_payload_ok _ _ _ Hrun) as [[-> _] | [-> _]];
             simpl; tauto.
        -- destruct (interpret_payload_raises _ _ Hrun) as [-> | [-> | ->]];
             eexists _, _; (split; [reflexivity|]); left; simpl; tauto.
      * specialize (Hloads _ _ Hdata).
        destruct e; try discriminate;
          eexists _, _; (split; [reflexivity|]); left; simpl; tauto.
  - destruct e; try contradiction;
      eexists _, _; (split; [reflexivity|]); left; simpl; tauto.
Qed.

(** X8. A body of upstream that decodes to something else than an object
    ([null], a number, a boolean, a string, an array) is answered with the
    500 of the last [except] clause, not with the 502 of a body that does
    not decode. *)
Theorem non_object_payload_fails json_loads key client req k r data :
  get_tag_feed_handler json_loads key client = Call req k ->
  ~ http_error r ->
  json_loads (clean_medium_response (text r)) = Ok data ->
  (forall kvs, data <> JObj kvs) ->
  k (Ok r) = Ok internal_error.
Proof.
  intros Hcall Hstatus Hdata Hshape.
  rewrite (handler_call _ _ _ _ _ Hcall).
  rewrite (try_block_decoded _ _ _ Hstatus Hdata).
  unfold interpret_payload, has_graphql_errors.
  destruct data as [|b|z|s|l|kvs]; try reflexivity.
  - cbn [contains bind]; destruct (is_substring "errors" s); reflexivity.
  - cbn [contains bind]; destruct (existsb (is_str "errors") l); reflexivity.
  - now destruct (Hshape kvs).
Qed.

(** X9. When [data.tagFeed.items] is there and is not an array: the empty
    object and the empty string are gone through like an empty array and
    give a 200 without articles; every other value gives the 500 of the last
    [except] clause. *)
Theorem items_not_an_array json_loads key client req k r payload data feed items :
  get_tag_feed_handler json_loads key client = Call req k ->
  ~ http_error r ->
  json_loads (clean_medium_response (text r)) = Ok (JObj payload) ->
  filled (dict_get payload "errors") = false ->
  dict_get payload "data" = Some (JObj data) ->
  dict_get data "tagFeed" = Some (JObj feed) ->
  dict_get feed "items" = Some items ->
  (forall l, items <> JArr l) ->
  (items = JObj [] \/ items = JStr "" ->
   k (Ok r) = Ok (JObj [("articles", JArr [])], 200%Z)) /\
  (items <> JObj [] -> items <> JStr "" -> k (Ok r) = Ok internal_error).
Proof.
  intros Hcall Hstatus Hdata Herrors H1 H2 H3 Hshape.
  rewrite (handler_call _ _ _ _ _ Hcall).
  rewrite (try_block_decoded _ _ _ Hstatus Hdata).
  rewrite (interpret_payload_clean _ Herrors).
  rewrite (normalize_path _ _ _ _ H1 H2 H3).
  split.
  - intros [-> | ->]; reflexivity.
  - intros Hobj Hstr.
    destruct items as [|b|z|s|l|kvs]; try reflexivity.
    + destruct s; [now destruct Hstr | reflexivity].
    + now destruct (Hshape l).
    + destruct kvs as [|[key0 v] kvs]; [now destruct Hobj | reflexivity].
Qed.

(** X11. For a payload without GraphQL errors whose [data.tagFeed.items]
    is an array: when every item is of the data model the answer is a 200
    with exactly as many articles as there are items with a non-empty post;
    when some item is not, the answer is the 500 of the last [except] clause
    and no article is returned. *)
Theorem feed_answer json_loads key client req k r payload data feed items :
  get_tag_feed_handler json_loads key client = Call req k ->
  ~ http_error r ->
  json_loads (clean_medium_response (text r)) = Ok (JObj payload) ->
  filled (dict_get payload "errors") = false ->
  dict_get payload "data" = Some (JObj data) ->
  dict_get data "tagFeed" = Some (JObj feed) ->
  dict_get feed "items" = Some (JArr items) ->
  (Forall upstream_item items ->
   exists articles,
     k (Ok r) = Ok (JObj [("articles", JArr articles)], 200%Z) /\
     List.length articles = List.length (filter has_post items)) /\
  (~ Forall upstream_item items -> k (Ok r) = Ok internal_error).
Proof.
  intros Hcall Hstatus Hdata Herrors H1 H2 H3.
  rewrite (handler_call _ _ _ _ _ Hcall).
  rewrite (try_block_decoded _ _ _ Hstatus Hdata).
  rewrite (interpret_payload_clean _ Herrors).
  rewrite (normalize_items _ _ _ _ H1 H2 H3).
  split.
  - intros Hitems.
    destruct (process_items_total _ Hitems []) as [articles Hrun].
    rewrite Hrun; exists articles; split; [reflexivity|].
    destruct (process_items_outcomes _ _ _ Hrun) as (outcomes & Hall & ->).
    exact (emitted_count _ _ Hall).
  - intros Hnot.
    destruct (process_items items []) as [articles|e] eqn:Hrun.
    + destruct Hnot.
      destruct (process_items_outcomes _ _ _ Hrun) as (outcomes & Hall & _).
      exact (outcomes_accepted _ _ Hall).
    + now rewrite (process_items_raises _ _ _ Hrun).
Qed.


(** The article of alice, as the handler returns it. *)
Lemma answer_shape_witness :
  (200%Z = 200%Z /\
   exists articles,
     JObj [("articles",
            JArr [JObj [("title", JStr "On proxies"); ("author", JStr "Alice");
                        ("link", JStr "https://alice.medium.com/on-proxies-1a2b")]])]
     = JObj [("articles", JArr articles)] /\
     Forall is_article articles) \/
  structured_error
    (JObj [("articles",
            JArr [JObj [("title", JStr "On proxies"); ("author", JStr "Alice");
                        ("link", JStr "https://alice.medium.com/on-proxies-1a2b")]])]).
Proof.
  exact (answer_shape (decode_as (JObj (feed_of [JObj item_alice]))) secret
           (Ok rust_hot) _ _ (Ok (ok_response "")) _ _ eq_refl eq_refl).
Defined.

(** A timeout of upstream. *)
Lemma answers_after_call_witness :
  exists body status,
    fst (serve (decode_fails "Expecting value: line 1 column 1 (char 0)") secret
           (fun _ => Raise Timeout) (Ok rust_hot))
    = Ok (body, status) /\
    (In status [200; 400; 500; 502; 503; 504]%Z \/
     exists r, Raise Timeout = Ok r /\ http_error r /\ status = status_code r).
Proof.
  apply (answers_after_call
           (decode_fails "Expecting value: line 1 column 1 (char 0)") secret
           (Ok rust_hot) _ _ (Raise Timeout) eq_refl).
  - intros body e [= <-]; reflexivity.
  - exact I.
  - discriminate.
Defined.

(** The body [[]] from upstream. *)
Lemma non_object_payload_fails_witness :
  fst (serve (decode_as (JArr [])) secret (fun _ => Ok (ok_response "[]"))
         (Ok rust_hot))
  = Ok internal_error.
Proof.
  apply (non_object_payload_fails (decode_as (JArr [])) secret (Ok rust_hot) _ _
           (ok_response "[]") (JArr []) eq_refl (ok_response_succeeds _) eq_refl).
  discriminate.
Defined.

(** Items that are the empty object, and items that are [null]. *)
Lemma items_not_an_array_witness :
  fst (serve (decode_as (JObj [("data", JObj [("tagFeed", JObj [("items", JObj [])])])]))
         secret (fun _ => Ok (ok_response "")) (Ok rust_hot))
  = Ok (JObj [("articles", JArr [])], 200%Z) /\
  fst (serve (decode_as (JObj [("data", JObj [("tagFeed", JObj [("items", JNull)])])]))
         secret (fun _ => Ok (ok_response "")) (Ok rust_hot))
  = Ok internal_error.
Proof.
  split.
  - apply (items_not_an_array
             (decode_as (JObj [("data", JObj [("tagFeed", JObj [("items", JObj [])])])]))
             secret (Ok rust_hot) _ _ (ok_response "")
             [("data", JObj [("tagFeed", JObj [("items", JObj [])])])]
             [("tagFeed", JObj [("items", JObj [])])] [("items", JObj [])] (JObj [])
             eq_refl (ok_response_succeeds _) eq_refl eq_refl eq_refl eq_refl eq_refl).
    + discriminate.
    + left; reflexivity.
  - apply (items_not_an_array
             (decode_as (JObj [("data", JObj [("tagFeed", JObj [("items", JNull)])])]))
             secret (Ok rust_hot) _ _ (ok_response "")
             [("data", JObj [("tagFeed", JObj [("items", JNull)])])]
             [("tagFeed", JObj [("items", JNull)])] [("items", JNull)] JNull
             eq_refl (ok_response_succeeds _) eq_refl eq_refl eq_refl eq_refl eq_refl);
      discriminate.
Defined.

(** Two items, one of them without post: one article. *)
Lemma feed_answer_witness :
  exists articles,
    fst (serve (decode_as (JObj (feed_of [JObj item_alice; JObj item_without_post])))
           secret (fun _ => Ok (ok_response "")) (Ok rust_hot))
    = Ok (JObj [("articles", JArr articles)], 200%Z) /\
    List.length articles = 1.
Proof.
  apply (feed_answer
           (decode_as (JObj (feed_of [JObj item_alice; JObj item_without_post])))
           secret (Ok rust_hot) _ _ (ok_response "")
           (feed_of [JObj item_alice; JObj item_without_post]) _ _
           [JObj item_alice; JObj item_without_post]
           eq_refl (ok_response_succeeds _) eq_refl eq_refl eq_refl eq_refl eq_refl).
  constructor; [|constructor; [|constructor]].
  - exists item_alice; split; [reflexivity|]; right.
    eexists; split; [reflexivity|]; split; [discriminate|].
    right; eexists; reflexivity.
  - exists item_without_post; split; [reflexivity|]; left; reflexivity.
Defined.

